(** * HighwayEnvV1: episode control, reward and termination

    A shallow embedding of [highway_env/envs/highway_env_v1.py].

    Conventions of the embedding.
    - Python and NumPy floats are read as real numbers; [np.pi] is [PI] and
      [np.cos] is [cos].  A division whose divisor is zero has no counterpart
      here where NumPy would answer with an infinity or a NaN; the divisions
      between plain Python numbers ([1 / simulation_frequency],
      [1 / vehicles_density]) raise [ZeroDivisionError] and are written with
      [py_div], which is partial.
    - An uncaught exception ([KeyError], [TypeError], [AttributeError],
      [ZeroDivisionError]) is [None] in the option monad.
    - Python objects that are shared and mutated (vehicles) live in a store
      indexed by object identity; lists of vehicles are lists of identities.
    - The configuration is the Python [dict] it is in the source: a finite
      map from strings to dynamically typed values. *)

From Stdlib Require Import Reals Lra Lia ZArith.
From stdpp Require Import gmap strings list.

Set Warnings "-register-all".

Open Scope R_scope.

(** ** Numbers *)

#[local] Instance Rlt_decision (x y : R) : Decision (x < y) := Rlt_dec x y.
#[local] Instance Rgt_decision (x y : R) : Decision (x > y) := Rgt_dec x y.
#[local] Instance Rge_decision (x y : R) : Decision (x >= y) := Rge_dec x y.
#[local] Instance Rle_decision (x y : R) : Decision (x <= y) := Rle_dec x y.
#[local] Instance Req_decision : EqDecision R := Req_dec_T.

(** [np.clip(x, lo, hi)]. *)
Definition clip (x lo hi : R) : R := Rmin (Rmax x lo) hi.

(** Modelled from the spec: [utils.lmap] is not part of the sources at hand.
    The spec calls it the affine rescaling of a value from one interval to
    another by linear interpolation, without clamping. *)
Definition lmap (v : R) (x y : R * R) : R :=
  y.1 + (v - x.1) * (y.2 - y.1) / (x.2 - x.1).

(** [int(x)] on a float: truncation towards zero. *)
Definition py_int (x : R) : Z :=
  if decide (0 <= x) then Int_part x else (- Int_part (- x))%Z.

(** [a / b] between Python numbers: [ZeroDivisionError] on a zero divisor. *)
Definition py_div (a b : R) : option R :=
  if decide (b = 0) then None else Some (a / b).

(** [float(b)] of a Python [bool]. *)
Definition float_of_bool (b : bool) : R := if b then 1 else 0.

(** ** Configuration values *)

Inductive value : Type :=
| VNone
| VBool (b : bool)
| VInt (z : Z)
| VFloat (r : R)
| VStr (s : string)
| VList (l : list value)
| VDict (d : list (string * value)).

(** Python truthiness, as [if v:] and [v and w] test it. *)
Definition truthy (v : value) : bool :=
  match v with
  | VNone => false
  | VBool b => b
  | VInt z => negb (Z.eqb z 0)
  | VFloat r => negb (bool_decide (r = 0))
  | VStr s => negb (bool_decide (s = ""%string))
  | VList l => match l with [] => false | _ => true end
  | VDict d => match d with [] => false | _ => true end
  end.

(** The number a value stands for in arithmetic; [None] is the [TypeError]
    of arithmetic on a value that is no number. *)
Definition as_num (v : value) : option R :=
  match v with
  | VBool b => Some (float_of_bool b)
  | VInt z => Some (IZR z)
  | VFloat r => Some r
  | _ => None
  end.

Definition as_int (v : value) : option Z :=
  match v with
  | VBool b => Some (if b then 1 else 0)%Z
  | VInt z => Some z
  | _ => None
  end.

(** A two-element range [x], read as [x[0]] and [x[1]]. *)
Definition as_range (v : value) : option (R * R) :=
  match v with
  | VList (a :: b :: _) => lo ← as_num a; hi ← as_num b; Some (lo, hi)
  | _ => None
  end.

Abbreviation Config := (gmap string value).

(** [config[key]] read as a number. *)
Definition get_num (config : Config) (key : string) : option R :=
  config !! key ≫= as_num.

Definition get_int (config : Config) (key : string) : option Z :=
  config !! key ≫= as_int.

(** [config.get(name, 0)] read as a number. *)
Definition get_weight (config : Config) (name : string) : option R :=
  as_num (default (VInt 0) (config !! name)).

(** The dictionary that [default_config] passes to [config.update]. *)
Definition default_config_update : Config :=
  list_to_map
    [ ("observation"%string,
       VDict
         [ ("type"%string, VStr "Kinematics");
           ("features"%string,
            VList [VStr "presence"; VStr "x"; VStr "y"; VStr "vx"; VStr "vy";
                   VStr "heading"]);
           ("vehicles_count"%string, VInt 15);
           ("features_range"%string,
            VDict
              [ ("x"%string, VList [VInt (-100); VInt 100]);
                ("y"%string, VList [VInt (-100); VInt 100]);
                ("vx"%string, VList [VInt (-20); VInt 20]);
                ("vy"%string, VList [VInt (-20); VInt 20]) ]);
           ("absolute"%string, VBool false) ]);
      ("action"%string,
       VDict
         [ ("type"%string, VStr "ContinuousAction");
           ("steering_range"%string,
            VList [VFloat (- PI / 3); VFloat (PI / 3)]);
           ("acceleration_range"%string,
            VList [VFloat (-5); VFloat 5]) ]);
      ("lanes_count"%string, VInt 4);
      ("vehicles_count"%string, VInt 20);
      ("controlled_vehicles"%string, VInt 1);
      ("initial_lane_id"%string, VNone);
      ("duration"%string, VInt 40);
      ("ego_spacing"%string, VInt 2);
      ("vehicles_density"%string, VFloat 0.7);
      ("collision_reward"%string, VInt (-1));
      ("right_lane_reward"%string, VFloat 0.1);
      ("high_speed_reward"%string, VFloat 0.4);
      ("lane_change_reward"%string, VFloat (-0.05));
      ("reward_speed_range"%string, VList [VInt 10; VInt 25]);
      ("stopping_penalty"%string, VFloat (-0.5));
      ("reverse_reward"%string, VFloat (-0.5));
      ("normalize_reward"%string, VBool true);
      ("offroad_terminal"%string, VBool true) ].

(** [default_config]: the inherited defaults [base] (the parent class is not
    part of the sources at hand, so they are an argument), updated with the
    table above; [dict.update] lets the new entries win. *)
Definition default_config (base : Config) : Config :=
  default_config_update ∪ base.

(** ** Vehicles, road and environment *)

(** A lane index: origin node, destination node, position within the group. *)
Definition LaneIndex : Type := string * string * Z.

Record Lane : Type := mkLane {
  width : R;
  local_coordinates : R * R -> R * R
}.

(** What [isinstance(vehicle, ControlledVehicle)] tells apart: only a
    [ControlledVehicle] has a [target_lane_index]. *)
Inductive VehicleClass : Type :=
| PlainVehicle
| ControlledVehicle (target_lane_index : LaneIndex).

Record Vehicle : Type := mkVehicle {
  vclass : VehicleClass;
  position : R * R;
  heading : R;
  speed : R;
  lane_index : LaneIndex;
  lane : Lane;
  crashed : bool;
  on_road : bool;
  action : gmap string R
}.

Definition set_crashed (b : bool) (v : Vehicle) : Vehicle :=
  mkVehicle (vclass v) (position v) (heading v) (speed v) (lane_index v)
            (lane v) b (on_road v) (action v).

Definition set_action (a : gmap string R) (v : Vehicle) : Vehicle :=
  mkVehicle (vclass v) (position v) (heading v) (speed v) (lane_index v)
            (lane v) (crashed v) (on_road v) a.

(** Object identity of a vehicle. *)
Definition oid : Type := nat.

(** State of the random generator [np_random]. *)
Definition Rng : Type := N.

Record RoadNetwork : Type := mkRoadNetwork {
  lanes_count_of : Z;
  speed_limit : R;
  all_side_lanes : LaneIndex -> list LaneIndex
}.

Record Road : Type := mkRoad {
  network : RoadNetwork;
  vehicles : list oid;
  record_history : value
}.

(** The road together with the objects it shares with the environment (the
    vehicles, the random generator): what [road.act()], [road.step(dt)] and
    the vehicle factories work on. *)
Record World : Type := mkWorld {
  objects : gmap oid Vehicle;
  road : Road;
  np_random : Rng
}.

Record Env : Type := mkEnv {
  config : Config;
  world : World;
  controlled_vehicles : list oid;
  time : R;
  _delay : R;
  _delayed_frequencies : Z;
  render_mode : option string
}.

Definition set_world (w : World) (e : Env) : Env :=
  mkEnv (config e) w (controlled_vehicles e) (time e) (_delay e)
        (_delayed_frequencies e) (render_mode e).

Definition set_controlled_vehicles (l : list oid) (e : Env) : Env :=
  mkEnv (config e) (world e) l (time e) (_delay e)
        (_delayed_frequencies e) (render_mode e).

Definition set_delay (d : R) (e : Env) : Env :=
  mkEnv (config e) (world e) (controlled_vehicles e) (time e) d
        (_delayed_frequencies e) (render_mode e).

Definition set_delayed_frequencies (n : Z) (e : Env) : Env :=
  mkEnv (config e) (world e) (controlled_vehicles e) (time e) (_delay e)
        n (render_mode e).

Definition set_objects (h : gmap oid Vehicle) (w : World) : World :=
  mkWorld h (road w) (np_random w).

Definition set_road (r : Road) (w : World) : World :=
  mkWorld (objects w) r (np_random w).

Definition set_np_random (g : Rng) (w : World) : World :=
  mkWorld (objects w) (road w) g.

Definition set_vehicles (l : list oid) (r : Road) : Road :=
  mkRoad (network r) l (record_history r).

(** Modelled from the spec: the [vehicle] property of the parent class is not
    part of the sources at hand.  The spec calls the ego vehicle the primary
    controlled vehicle: the first entry of [controlled_vehicles]. *)
Definition ego (e : Env) : option oid := controlled_vehicles e !! 0%nat.

Definition vehicle (e : Env) : option Vehicle :=
  i ← ego e; objects (world e) !! i.

(** An in-place update of the ego vehicle object. *)
Definition update_vehicle (f : Vehicle -> Vehicle) (e : Env) : option Env :=
  i ← ego e;
  v ← objects (world e) !! i;
  Some (set_world (set_objects (<[i := f v]> (objects (world e))) (world e)) e).

(** The last action performed; the reward code never looks at it. *)
Inductive Action : Type :=
| DiscreteAction (a : Z)
| ContinuousAction (a : list R).

(** ** Reward terms *)

(** The [dict] that [_rewards] returns, in insertion order. *)
Definition Rewards : Type := list (string * R).

(** [rewards[name]]. *)
Fixpoint rewards_get (rewards : Rewards) (name : string) : option R :=
  match rewards with
  | [] => None
  | (k, x) :: rest => if decide (k = name) then Some x else rewards_get rest name
  end.

(** [lane]: the index component the right-lane term ranks. *)
Definition lane_rank (v : Vehicle) : Z :=
  match vclass v with
  | ControlledVehicle target_lane_index => target_lane_index.2
  | PlainVehicle => (lane_index v).2
  end.

Definition forward_speed (v : Vehicle) : R := speed v * cos (heading v).

(** The terminal test inside [_rewards]; Python's [or] and [and] short-circuit,
    which shows in no result since both operands are total. *)
Definition terminal_condition (v : Vehicle) (scaled_speed t : R) : bool :=
  bool_decide (Rabs (heading v) > 0.5 * PI)
  || (bool_decide (scaled_speed < -0.1) && bool_decide (t > 1)).

Definition _rewards (action : Action) (e : Env) : option (Rewards * Env) :=
  v ← vehicle e;
  let neighbours := all_side_lanes (network (road (world e))) (lane_index v) in
  let lane_ := lane_rank v in
  let forward_speed := forward_speed v in
  range ← config e !! "reward_speed_range" ≫= as_range;
  let scaled_speed := lmap forward_speed range (0, 1) in
  let heading_penalty := - Rabs (heading v) / (0.5 * PI) in
  let speed_reward := clip scaled_speed 0 1 in
  let speed_reward :=
    if decide (forward_speed < 5) then forward_speed / 5 else speed_reward in
  let lane_width := width (lane v) in
  let lane_pos := (local_coordinates (lane v) (position v)).2 in
  let lane_centering := - Rabs lane_pos / (lane_width / 2) in
  e' ← (if terminal_condition v scaled_speed (time e)
        then update_vehicle (set_crashed true) e
        else Some e);
  v' ← vehicle e';
  Some
    ([ ("collision_reward"%string, float_of_bool (crashed v'));
       ("right_lane_reward"%string,
        IZR lane_ / IZR (Z.max (Z.of_nat (length neighbours) - 1) 1));
       ("high_speed_reward"%string, speed_reward);
       ("on_road_reward"%string, float_of_bool (on_road v'));
       ("heading_penalty"%string, heading_penalty);
       ("lane_centering"%string, lane_centering * 0.1);
       ("stopping_penalty"%string,
        if decide (forward_speed < 2) then -0.5 else 0) ],
     e').

(** ** The scalar reward *)

(** [sum(config.get(name, 0) * reward for name, reward in rewards.items())]:
    Python's [sum] starts from 0 and adds from the left. *)
Fixpoint weighted_sum_from (config : Config) (acc : R) (rewards : Rewards)
  : option R :=
  match rewards with
  | [] => Some acc
  | (name, reward) :: rest =>
      w ← get_weight config name;
      weighted_sum_from config (acc + w * reward) rest
  end.

Definition weighted_sum (config : Config) (rewards : Rewards) : option R :=
  weighted_sum_from config 0 rewards.

(** The [if self.config["normalize_reward"]:] block. *)
Definition normalize (config : Config) (reward : R) : option R :=
  flag ← config !! "normalize_reward";
  if truthy flag then
    collision ← get_num config "collision_reward";
    high_speed ← get_num config "high_speed_reward";
    right_lane ← get_num config "right_lane_reward";
    Some (lmap reward (collision, high_speed + right_lane) (0, 1))
  else Some reward.

(** [_reward] from [rewards = self._rewards(action)] on. *)
Definition blend (config : Config) (rewards : Rewards) : option R :=
  reward ← weighted_sum config rewards;
  reward ← normalize config reward;
  on_road_reward ← rewards_get rewards "on_road_reward";
  Some (reward * on_road_reward).

(** ** The layout of the module *)

(** The statements of the file, as far as names go: what a block binds when
    it runs. *)
Inductive Stmt : Type :=
| SImport (names : list string)
| SAssign (name : string)
| SClass (name : string) (body : list Stmt)
| SDef (name : string) (body : list Stmt)
| SReturn
| SOther.

(** The file, statement by statement, indentation giving the nesting: the
    class statement ends with [_reward]; [_rewards] starts in the first
    column, and the two [def]s that follow its [return] are indented into
    its body. *)
Definition module_source : list Stmt :=
  [ SImport ["annotations"; "Dict"; "Text"; "np"; "utils"; "AbstractEnv";
             "Action"; "Road"; "RoadNetwork"; "near_split";
             "ControlledVehicle"; "Vehicle"]%string;
    SAssign "Observation";
    SClass "HighwayEnvV1"
      [ SOther;
        SDef "default_config" [SAssign "config"; SOther; SReturn];
        SDef "__init__" [SOther; SOther; SOther; SOther];
        SDef "elapse" [SOther; SOther; SOther; SOther];
        SDef "_reset" [SOther; SOther; SOther];
        SDef "_create_road" [SOther; SOther];
        SDef "render" [SOther];
        SDef "_create_vehicles"
          [SOther; SAssign "other_vehicles_type";
           SAssign "other_per_controlled"; SOther; SOther];
        SDef "_reward"
          [SOther; SAssign "rewards"; SAssign "reward"; SOther; SOther;
           SReturn] ];
    SDef "_rewards"
      [ SAssign "neighbours"; SAssign "lane"; SAssign "forward_speed";
        SAssign "scaled_speed"; SAssign "heading_penalty";
        SAssign "speed_reward"; SOther; SAssign "lane_width";
        SAssign "lane_pos"; SAssign "lane_centering"; SOther; SReturn;
        SDef "_is_terminated" [SOther; SReturn];
        SDef "_is_truncated" [SOther; SReturn] ] ].

(** The names a block binds when it runs: nothing after a [return] runs, and
    the body of a [def] does not run when the [def] does. *)
Fixpoint bound_names (block : list Stmt) : list string :=
  match block with
  | [] => []
  | SImport names :: rest => names ++ bound_names rest
  | SAssign name :: rest => name :: bound_names rest
  | SClass name _ :: rest => name :: bound_names rest
  | SDef name _ :: rest => name :: bound_names rest
  | SReturn :: _ => []
  | SOther :: rest => bound_names rest
  end.

(** The body of the class [cls] among the statements of a block. *)
Fixpoint class_body (cls : string) (block : list Stmt) : option (list Stmt) :=
  match block with
  | [] => None
  | SClass name body :: rest =>
      if decide (name = cls) then Some body else class_body cls rest
  | _ :: rest => class_body cls rest
  end.

(** The body of the function [f] among the statements of a block. *)
Fixpoint def_body (f : string) (block : list Stmt) : option (list Stmt) :=
  match block with
  | [] => None
  | SDef name body :: rest =>
      if decide (name = f) then Some body else def_body f rest
  | _ :: rest => def_body f rest
  end.

(** The attributes the class statement gives [HighwayEnvV1]; every other
    attribute of an instance is looked up in the parent class. *)
Definition class_attributes : list string :=
  default [] (bound_names <$> class_body "HighwayEnvV1" module_source).

(** The methods [HighwayEnvV1] takes from its parent [AbstractEnv], which is
    not part of the sources at hand. *)
Class AbstractEnv : Type := {
  inherited_rewards : Action -> Env -> option (Rewards * Env);
  inherited_is_terminated : Env -> option bool;
  inherited_is_truncated : Env -> option bool
}.

(** [_reward]: [self._rewards] is looked up on the class, which binds no
    [_rewards], so the call runs the parent's method. *)
Definition _reward `{AbstractEnv} (action : Action) (e : Env)
  : option (R * Env) :=
  '(rewards, e') ← inherited_rewards action e;
  reward ← blend (config e') rewards;
  Some (reward, e').

(** [env._is_terminated()] and [env._is_truncated()]: the class binds
    neither name, so the calls run the parent's methods. *)
Definition is_terminated_call `{AbstractEnv} (e : Env) : option bool :=
  inherited_is_terminated e.

Definition is_truncated_call `{AbstractEnv} (e : Env) : option bool :=
  inherited_is_truncated e.

(** ** Collaborators outside this file *)

(** A vehicle class handle, as [utils.class_from_path] returns it. *)
Definition VehicleType : Type := string.

Class Collaborators : Type := {
  (** [road.act()] *)
  road_act : World -> World;
  (** [road.step(dt)] *)
  road_step : R -> World -> World;
  (** [RoadNetwork.straight_road_network(lanes, speed_limit=...)] *)
  straight_road_network : value -> R -> RoadNetwork;
  (** [utils.class_from_path(path)] *)
  class_from_path : value -> option VehicleType;
  (** [Vehicle.create_random(road, speed, lane_id, spacing)]: the vehicle and
      the generator state it leaves. *)
  Vehicle_create_random : World -> value -> value -> value -> Vehicle * Rng;
  (** [self.action_type.vehicle_class(road, position, heading, speed)] *)
  action_vehicle_class : World -> R * R -> R -> R -> Vehicle;
  (** [cls.create_random(road, spacing=...)] for a traffic class [cls] *)
  create_random_of : VehicleType -> World -> value -> Vehicle * Rng;
  (** [vehicle.randomize_behavior()] *)
  randomize_behavior : Vehicle -> Rng -> Vehicle * Rng
}.

(** ** The delayed-action stepper *)

(** The body of [for _ in range(n)], [n] times. *)
Fixpoint elapse_loop `{Collaborators} (n : nat) (e : Env) : option Env :=
  match n with
  | O => Some e
  | S n' =>
      let e := set_world (road_act (world e)) e in
      frequency ← get_num (config e) "simulation_frequency";
      dt ← py_div 1 frequency;
      elapse_loop n' (set_world (road_step dt (world e)) e)
  end.

Definition elapse `{Collaborators} (delay : R) (reset_steering : bool) (e : Env)
  : option Env :=
  let e := set_delay delay e in
  e ← (if reset_steering
       then update_vehicle
              (fun v => set_action (<["steering"%string := 0]> (action v)) v) e
       else Some e);
  frequency ← get_num (config e) "simulation_frequency";
  let e := set_delayed_frequencies (py_int (_delay e * frequency)) e in
  elapse_loop (Z.to_nat (_delayed_frequencies e)) e.

(** ** The scene populator *)

(** Modelled from the spec: [utils.near_split] is not part of the sources at
    hand.  The spec has the traffic split as evenly as possible across the
    controlled vehicles, the remainder going to the first groups; no split
    exists over no bins. *)
Definition near_split (x num_bins : Z) : option (list Z) :=
  if decide (num_bins = 0%Z) then None
  else
    let quotient := (x / num_bins)%Z in
    let remainder := (x mod num_bins)%Z in
    Some (replicate (Z.to_nat remainder) (quotient + 1)%Z
          ++ replicate (Z.to_nat (num_bins - remainder)) quotient).

(** A newly constructed object: its identity is one no object has yet. *)
Definition alloc (v : Vehicle) (w : World) : oid * World :=
  let i := fresh (dom (objects w)) in
  (i, set_objects (<[i := v]> (objects w)) w).

(** [self.road.vehicles.append(vehicle)] *)
Definition road_vehicles_append (i : oid) (w : World) : World :=
  set_road (set_vehicles (vehicles (road w) ++ [i]) (road w)) w.

(** Modelled from the spec: the constructor [Road(network, np_random,
    record_history)] is not part of the sources at hand; the spec has the
    road created at reset and populated by the scene populator only, so a new
    road carries no vehicle. *)
Definition _create_road `{Collaborators} (e : Env) : option Env :=
  lanes_count ← config e !! "lanes_count";
  show_trajectories ← config e !! "show_trajectories";
  let r := mkRoad (straight_road_network lanes_count 30) [] show_trajectories in
  Some (set_world (set_road r (world e)) e).

(** The inner loop [for _ in range(others)]. *)
Fixpoint create_others `{Collaborators} (other_vehicles_type : VehicleType)
    (n : nat) (e : Env) : option Env :=
  match n with
  | O => Some e
  | S n' =>
      density ← get_num (config e) "vehicles_density";
      spacing ← py_div 1 density;
      let '(v, g) :=
        create_random_of other_vehicles_type (world e) (VFloat spacing) in
      let '(v, g) := randomize_behavior v g in
      let '(i, w) := alloc v (set_np_random g (world e)) in
      create_others other_vehicles_type n'
                    (set_world (road_vehicles_append i w) e)
  end.

(** The outer loop [for others in other_per_controlled]. *)
Fixpoint create_groups `{Collaborators} (other_vehicles_type : VehicleType)
    (other_per_controlled : list Z) (e : Env) : option Env :=
  match other_per_controlled with
  | [] => Some e
  | others :: rest =>
      lane_id ← config e !! "initial_lane_id";
      spacing ← config e !! "ego_spacing";
      let '(v, g) :=
        Vehicle_create_random (world e) (VInt 25) lane_id spacing in
      let w := set_np_random g (world e) in
      let v := action_vehicle_class w (position v) (heading v) (speed v) in
      let '(i, w) := alloc v w in
      let e :=
        set_controlled_vehicles (controlled_vehicles e ++ [i])
                                (set_world w e) in
      let e := set_world (road_vehicles_append i (world e)) e in
      e ← create_others other_vehicles_type (Z.to_nat others) e;
      create_groups other_vehicles_type rest e
  end.

Definition _create_vehicles `{Collaborators} (e : Env) : option Env :=
  path ← config e !! "other_vehicles_type";
  other_vehicles_type ← class_from_path path;
  vehicles_count ← get_int (config e) "vehicles_count";
  controlled ← get_int (config e) "controlled_vehicles";
  other_per_controlled ← near_split vehicles_count controlled;
  create_groups other_vehicles_type other_per_controlled
                (set_controlled_vehicles [] e).

(** [_reset]; the closing [render()] draws and changes nothing modelled. *)
Definition _reset `{Collaborators} (e : Env) : option Env :=
  e ← _create_road e;
  _create_vehicles e.

(** ** Auxiliary notions used in the statements *)

(** The names of the reward terms, in the order [_rewards] inserts them. *)
Definition reward_names : list string :=
  [ "collision_reward"; "right_lane_reward"; "high_speed_reward";
    "on_road_reward"; "heading_penalty"; "lane_centering";
    "stopping_penalty" ]%string.

(** [rewards[name] = x] on a name that is present: the value changes, the
    order of the entries does not. *)
Fixpoint rewards_set (rewards : Rewards) (name : string) (x : R) : Rewards :=
  match rewards with
  | [] => []
  | (k, y) :: rest =>
      (k, if decide (k = name) then x else y) :: rewards_set rest name x
  end.

(** The value of a term, 0 for a name the mapping does not have. *)
Definition term (rewards : Rewards) (name : string) : R :=
  default 0 (rewards_get rewards name).


(** The terms as the source writes them, for the ego vehicle [v'] the call
    leaves behind. *)
Definition rewards_of (v v' : Vehicle) (neighbours : list LaneIndex)
    (range : R * R) : Rewards :=
  [ ("collision_reward"%string, float_of_bool (crashed v'));
    ("right_lane_reward"%string,
     IZR (lane_rank v) / IZR (Z.max (Z.of_nat (length neighbours) - 1) 1));
    ("high_speed_reward"%string,
     if decide (forward_speed v < 5) then forward_speed v / 5
     else clip (lmap (forward_speed v) range (0, 1)) 0 1);
    ("on_road_reward"%string, float_of_bool (on_road v'));
    ("heading_penalty"%string, - Rabs (heading v) / (0.5 * PI));
    ("lane_centering"%string,
     - Rabs (local_coordinates (lane v) (position v)).2 / (width (lane v) / 2)
     * 0.1);
    ("stopping_penalty"%string,
     if decide (forward_speed v < 2) then -0.5 else 0) ].

(** ** Sample data *)

(** A table of inherited defaults, for the examples. *)
Definition sample_base_config : Config :=
  list_to_map
    [ ("simulation_frequency"%string, VInt 15);
      ("policy_frequency"%string, VInt 1);
      ("other_vehicles_type"%string,
       VStr "highway_env.vehicle.behavior.IDMVehicle");
      ("show_trajectories"%string, VBool false) ].

Definition sample_lane : Lane := mkLane 4 (fun p => p).

Definition sample_vehicle : Vehicle :=
  mkVehicle PlainVehicle (0, 0) 0 15 ("0", "1", 0%Z)%string sample_lane
            false true ∅.

Definition sample_network : RoadNetwork :=
  mkRoadNetwork 1 30 (fun i => [(i.1, 0%Z)]).

Definition sample_world : World :=
  mkWorld {[ 0%nat := sample_vehicle ]}
          (mkRoad sample_network [0%nat] (VBool false)) 0%N.

(** The spec's example: one lane, forward speed 15, heading 0, on the road,
    not crashed, default weights. *)
Definition sample_env : Env :=
  mkEnv (default_config sample_base_config) sample_world [0%nat] 0 0 0 None.

(** Collaborators that leave the world alone and build vehicles at rest. *)
Definition sample_collaborators : Collaborators :=
  {| road_act := fun w => w;
     road_step := fun _ w => w;
     straight_road_network := fun _ limit => mkRoadNetwork 4 limit
                                               (fun i => [(i.1, 0%Z); (i.1, 1%Z); (i.1, 2%Z); (i.1, 3%Z)]);
     class_from_path := fun p => match p with VStr s => Some s | _ => None end;
     Vehicle_create_random := fun w _ _ _ => (sample_vehicle, N.succ (np_random w));
     action_vehicle_class := fun _ p h s =>
       mkVehicle PlainVehicle p h s ("0", "1", 0%Z)%string sample_lane false true ∅;
     create_random_of := fun _ w _ => (sample_vehicle, N.succ (np_random w));
     randomize_behavior := fun v g => (v, N.succ g) |}.


(** Collaborators whose [road.step] counts its calls in the generator
    state. *)
Definition counting_collaborators : Collaborators :=
  {| road_act := fun w => w;
     road_step := fun _ w => set_np_random (N.succ (np_random w)) w;
     straight_road_network := @straight_road_network sample_collaborators;
     class_from_path := @class_from_path sample_collaborators;
     Vehicle_create_random := @Vehicle_create_random sample_collaborators;
     action_vehicle_class := @action_vehicle_class sample_collaborators;
     create_random_of := @create_random_of sample_collaborators;
     randomize_behavior := @randomize_behavior sample_collaborators |}.

(** The sample environment at ten physics ticks per second. *)
Definition sample_env_10hz : Env :=
  mkEnv (<["simulation_frequency"%string := VInt 10]> (config sample_env))
        sample_world [0%nat] 0 0 0 None.

(** The sample vehicle crawling at forward speed 1. *)
Definition slow_vehicle : Vehicle :=
  mkVehicle PlainVehicle (0, 0) 0 1 ("0", "1", 0%Z)%string sample_lane
            false true ∅.

Definition slow_env : Env :=
  mkEnv (default_config sample_base_config)
        (mkWorld {[ 0%nat := slow_vehicle ]}
                 (mkRoad sample_network [0%nat] (VBool false)) 0%N)
        [0%nat] 0 0 0 None.

(** ** Notions for the populator and the crashed flag *)

(** A vehicle object as the controlled-vehicle factory returns it. *)
Definition built_as_controlled `{Collaborators} (v : Vehicle) : Prop :=
  exists w p h s, v = action_vehicle_class w p h s.

(** A vehicle object as the traffic factory returns it, behaviour
    randomised. *)
Definition built_as_traffic `{Collaborators} (v : Vehicle) : Prop :=
  exists cls w spacing g,
    v = (randomize_behavior (create_random_of cls w spacing).1 g).1.

(** The vehicles of a group: the controlled one, then its traffic. *)
Definition group_members (g : oid * list oid) : list oid := g.1 :: g.2.





(** The crawling vehicle two seconds into the episode. *)
Definition late_slow_env : Env :=
  mkEnv (default_config sample_base_config)
        (mkWorld {[ 0%nat := slow_vehicle ]}
                 (mkRoad sample_network [0%nat] (VBool false)) 0%N)
        [0%nat] 2 0 0 None.

(** The sample configuration asking for no traffic and giving no density. *)
Definition no_traffic_env : Env :=
  mkEnv (<["vehicles_count"%string := VInt 0]>
           (delete "vehicles_density"%string (config sample_env)))
        sample_world [0%nat] 0 0 0 None.

(** The sample configuration with a traffic density of zero. *)
Definition zero_density_env : Env :=
  mkEnv (<["vehicles_density"%string := VInt 0]> (config sample_env))
        sample_world [0%nat] 0 0 0 None.

(** An environment that configures the speed range and switches the
    normalisation off, and nothing else. *)
Definition unweighted_env : Env :=
  mkEnv (<["normalize_reward"%string := VBool false]>
           {[ "reward_speed_range"%string := VList [VInt 10; VInt 25] ]})
        sample_world [0%nat] 0 0 0 None.

(** The sample environment with the clock at [t]. *)
Definition sample_env_at (t : R) : Env :=
  mkEnv (config sample_env) sample_world [0%nat] t 0 0 None.

(** A parent class whose reward and termination methods are abstract: they
    raise [NotImplementedError]. *)
Definition abstract_parent : AbstractEnv :=
  {| inherited_rewards := fun _ _ => None;
     inherited_is_terminated := fun _ => None;
     inherited_is_truncated := fun _ => None |}.

(** The sample vehicle off the road. *)
Definition offroad_vehicle : Vehicle :=
  mkVehicle PlainVehicle (0, 0) 0 15 ("0", "1", 0%Z)%string sample_lane
            false false ∅.

Definition offroad_env : Env :=
  mkEnv (default_config sample_base_config)
        (mkWorld {[ 0%nat := offroad_vehicle ]}
                 (mkRoad sample_network [0%nat] (VBool false)) 0%N)
        [0%nat] 0 0 0 None.

(** The sample vehicle with its crashed flag set. *)
Definition crashed_vehicle : Vehicle :=
  mkVehicle PlainVehicle (0, 0) 0 15 ("0", "1", 0%Z)%string sample_lane
            true true ∅.

Definition crashed_env : Env :=
  mkEnv (default_config sample_base_config)
        (mkWorld {[ 0%nat := crashed_vehicle ]}
                 (mkRoad sample_network [0%nat] (VBool false)) 0%N)
        [0%nat] 0 0 0 None.


Definition misplaced_vehicle : Vehicle :=
  mkVehicle PlainVehicle (0, 0) 0 15 ("0", "1", 3%Z)%string sample_lane
            false true ∅.


(** The sample vehicle held in a turn: steering 0.3, acceleration 1. *)
Definition steering_vehicle : Vehicle :=
  mkVehicle PlainVehicle (0, 0) 0 15 ("0", "1", 0%Z)%string sample_lane
            false true
            (<["steering"%string := 0.3]> {[ "acceleration"%string := 1 ]}).

Definition steering_env : Env :=
  mkEnv (<["simulation_frequency"%string := VInt 10]> (config sample_env))
        (mkWorld {[ 0%nat := steering_vehicle ]}
                 (mkRoad sample_network [0%nat] (VBool false)) 0%N)
        [0%nat] 0 0 0 None.

(** The terms [_rewards] returns for the crawling vehicle of [slow_env]
    while it is not flagged. *)
Definition slow_rewards : Rewards :=
  [ ("collision_reward"%string, 0); ("right_lane_reward"%string, 0);
    ("high_speed_reward"%string, 1 / 5); ("on_road_reward"%string, 1);
    ("heading_penalty"%string, 0); ("lane_centering"%string, 0);
    ("stopping_penalty"%string, -0.5) ].

(** A parent class whose [_rewards] answers with a fixed mapping, whatever
    the state. *)
Definition stub_parent : AbstractEnv :=
  {| inherited_rewards := fun _ e =>
       Some ([ ("high_speed_reward"%string, 1); ("on_road_reward"%string, 1) ],
             e);
     inherited_is_terminated := fun _ => Some false;
     inherited_is_truncated := fun _ => Some false |}.
(** * Properties *)

(** ** The ego vehicle and its updates *)

Lemma vehicle_lookup (e : Env) (v : Vehicle) :
  vehicle e = Some v ->
  exists i, ego e = Some i /\ objects (world e) !! i = Some v.
Proof.
  unfold vehicle. destruct (ego e) as [i|] eqn:Hi; simpl; [|discriminate].
  intros Hv. exists i. split; [reflexivity | exact Hv].
Qed.

Lemma update_vehicle_spec (f : Vehicle -> Vehicle) (e : Env) (v : Vehicle) :
  vehicle e = Some v ->
  exists e',
    update_vehicle f e = Some e'
    /\ vehicle e' = Some (f v)
    /\ config e' = config e
    /\ time e' = time e
    /\ controlled_vehicles e' = controlled_vehicles e
    /\ road (world e') = road (world e)
    /\ _delay e' = _delay e.
Proof.
  intros Hv. destruct (vehicle_lookup e v Hv) as (i & Hi & Hobj).
  unfold update_vehicle. rewrite Hi. simpl. rewrite Hobj. simpl.
  eexists. split; [reflexivity|].
  repeat split; try reflexivity.
  unfold vehicle, ego in *. simpl. rewrite Hi. simpl.
  apply lookup_insert_eq.
Qed.

Lemma update_vehicle_run (f : Vehicle -> Vehicle) (e : Env) (i : oid)
    (v : Vehicle) :
  ego e = Some i ->
  objects (world e) !! i = Some v ->
  update_vehicle f e
  = Some (set_world (set_objects (<[i := f v]> (objects (world e))) (world e))
                    e).
Proof.
  intros Hi Hobj. unfold update_vehicle. rewrite Hi. simpl. rewrite Hobj.
  reflexivity.
Qed.

Lemma set_crashed_id (v : Vehicle) : crashed v = true -> set_crashed true v = v.
Proof. destruct v; simpl. intros ->. reflexivity. Qed.

(** ** What a call of [_rewards] computes *)

Lemma rewards_run (a : Action) (e : Env) (v : Vehicle) (range : R * R) :
  vehicle e = Some v ->
  config e !! "reward_speed_range" ≫= as_range = Some range ->
  let c := terminal_condition v (lmap (forward_speed v) range (0, 1)) (time e) in
  let v' := if c then set_crashed true v else v in
  exists e',
    (if c then update_vehicle (set_crashed true) e else Some e) = Some e'
    /\ vehicle e' = Some v'
    /\ config e' = config e
    /\ time e' = time e
    /\ _rewards a e
       = Some (rewards_of v v'
                 (all_side_lanes (network (road (world e))) (lane_index v))
                 range, e').
Proof.
  intros Hv Hr c v'.
  assert (exists e',
    (if c then update_vehicle (set_crashed true) e else Some e) = Some e'
    /\ vehicle e' = Some v' /\ config e' = config e /\ time e' = time e
    /\ road (world e') = road (world e)) as (e' & He' & Hv' & Hc & Ht & Hw).
  { subst v'. destruct c.
    - destruct (update_vehicle_spec (set_crashed true) e v Hv)
        as (e' & H1 & H2 & H3 & H4 & _ & H6 & _).
      exists e'. auto.
    - exists e. auto. }
  exists e'. repeat split; try assumption.
  unfold _rewards. rewrite Hv. simpl. rewrite Hr. simpl.
  fold c. rewrite He'. simpl. rewrite Hv'. simpl.
  reflexivity.
Qed.

(** ** Arithmetic of the terms *)

Lemma lmap_unit (x lo hi : R) : lmap x (lo, hi) (0, 1) = (x - lo) / (hi - lo).
Proof. unfold lmap, Rdiv. simpl. ring. Qed.

Lemma half_pi (x : R) : x / (0.5 * PI) = x / (PI / 2).
Proof. pose proof PI_neq0. replace 0.5 with (1 / 2) by lra. field. lra. Qed.

Lemma rewards_of_names (v v' : Vehicle) (l : list LaneIndex) (range : R * R) :
  (rewards_of v v' l range).*1 = reward_names.
Proof. reflexivity. Qed.

(** C2: the mapping returned by [_rewards] has the seven fixed names, in
    order, and each term has the stated value: collision 1 or 0 by the crashed
    flag, right lane [lane_rank / max(neighbor_count - 1, 1)] with the rank
    taken from the target lane index of a controlled vehicle and from the
    current lane index otherwise, high speed [forward_speed / 5] below 5 and
    the clipped rescaled speed from 5 on, on road 1 or 0, heading penalty
    [-|heading| / (pi/2)], lane centering [0.1 * (-|offset| / (width / 2))],
    stopping penalty -0.5 below forward speed 2 and 0 otherwise. *)
Theorem rewards_terms (a : Action) (e : Env) (v : Vehicle) (lo hi : R) :
  vehicle e = Some v ->
  config e !! "reward_speed_range" ≫= as_range = Some (lo, hi) ->
  let fs := speed v * cos (heading v) in
  let rank :=
    match vclass v with
    | ControlledVehicle target => target.2
    | PlainVehicle => (lane_index v).2
    end in
  let neighbor_count :=
    Z.of_nat
      (length (all_side_lanes (network (road (world e))) (lane_index v))) in
  let lateral_offset := (local_coordinates (lane v) (position v)).2 in
  exists rewards e' v',
    _rewards a e = Some (rewards, e')
    /\ vehicle e' = Some v'
    /\ rewards.*1 = reward_names
    /\ rewards_get rewards "collision_reward"
       = Some (if crashed v' then 1 else 0)
    /\ rewards_get rewards "right_lane_reward"
       = Some (IZR rank / IZR (Z.max (neighbor_count - 1) 1))
    /\ rewards_get rewards "high_speed_reward"
       = Some (if decide (fs < 5) then fs / 5
               else Rmin (Rmax ((fs - lo) / (hi - lo)) 0) 1)
    /\ rewards_get rewards "on_road_reward"
       = Some (if on_road v then 1 else 0)
    /\ rewards_get rewards "heading_penalty"
       = Some (- Rabs (heading v) / (PI / 2))
    /\ rewards_get rewards "lane_centering"
       = Some (0.1 * (- Rabs lateral_offset / (width (lane v) / 2)))
    /\ rewards_get rewards "stopping_penalty"
       = Some (if decide (fs < 2) then -0.5 else 0).
Proof.
  intros Hv Hr fs rank neighbor_count lateral_offset.
  destruct (rewards_run a e v (lo, hi) Hv Hr) as (e' & _ & Hv' & _ & _ & Hrun).
  eexists _, e', _. split; [exact Hrun|]. split; [exact Hv'|].
  split; [apply rewards_of_names|].
  unfold rewards_of. simpl.
  repeat split.
  - f_equal. unfold forward_speed. fold fs. rewrite lmap_unit. reflexivity.
  - destruct (terminal_condition _ _ _); reflexivity.
  - f_equal. apply half_pi.
  - f_equal. fold lateral_offset. lra.
Qed.

Lemma sample_vehicle_is_ego : vehicle sample_env = Some sample_vehicle.
Proof. reflexivity. Qed.

Lemma sample_speed_range :
  config sample_env !! "reward_speed_range" ≫= as_range = Some (10, 25).
Proof. reflexivity. Qed.

Lemma sample_forward_speed : speed sample_vehicle * cos (heading sample_vehicle) = 15.
Proof. simpl. rewrite cos_0. lra. Qed.

Lemma rewards_terms_witness :
  exists rewards e',
    _rewards (DiscreteAction 0) sample_env = Some (rewards, e')
    /\ rewards_get rewards "high_speed_reward" = Some (1 / 3).
Proof.
  destruct (rewards_terms (DiscreteAction 0) sample_env sample_vehicle 10 25
              sample_vehicle_is_ego sample_speed_range)
    as (rewards & e' & v' & Hrun & _ & _ & _ & _ & Hs & _).
  exists rewards, e'. split; [exact Hrun|].
  rewrite Hs, sample_forward_speed. f_equal.
  destruct (decide (15 < 5)) as [H|_]; [lra|].
  replace ((15 - 10) / (25 - 10)) with (1 / 3) by lra.
  rewrite Rmax_left by lra. rewrite Rmin_left by lra. reflexivity.
Defined.

(** ** The weighted sum and the blend *)

Lemma weighted_sum_from_fold (cfg : Config) (w : string -> R)
    (rewards : Rewards) (acc : R) :
  (forall name, name ∈ rewards.*1 -> get_weight cfg name = Some (w name)) ->
  weighted_sum_from cfg acc rewards
  = Some (fold_left (fun s p => s + w p.1 * p.2) rewards acc).
Proof.
  revert acc. induction rewards as [|[name x] rest IH]; intros acc Hw.
  - reflexivity.
  - simpl. rewrite (Hw name) by (simpl; left). simpl.
    apply IH. intros n Hn. apply Hw. simpl. right. exact Hn.
Qed.

(** ** The spec's example, evaluated *)

Lemma sample_not_terminal (scaled : R) :
  terminal_condition sample_vehicle scaled (time sample_env) = false.
Proof.
  unfold terminal_condition. simpl.
  rewrite (bool_decide_eq_false_2 (Rabs 0 > 0.5 * PI)).
  - rewrite (bool_decide_eq_false_2 (0 > 1)) by lra.
    apply andb_false_r.
  - rewrite Rabs_R0. pose proof PI_RGT_0. lra.
Qed.

Lemma sample_rewards (a : Action) :
  _rewards a sample_env
  = Some ([ ("collision_reward"%string, 0); ("right_lane_reward"%string, 0);
            ("high_speed_reward"%string, 1 / 3); ("on_road_reward"%string, 1);
            ("heading_penalty"%string, 0); ("lane_centering"%string, 0);
            ("stopping_penalty"%string, 0) ], sample_env).
Proof.
  destruct (rewards_run a sample_env sample_vehicle (10, 25)
              sample_vehicle_is_ego sample_speed_range)
    as (e' & He' & _ & _ & _ & Hrun).
  rewrite sample_not_terminal in He', Hrun.
  injection He' as <-. rewrite Hrun. f_equal. f_equal.
  unfold rewards_of, forward_speed. rewrite sample_forward_speed.
  destruct (decide (15 < 5)) as [H|_]; [lra|].
  destruct (decide (15 < 2)) as [H|_]; [lra|].
  rewrite lmap_unit. unfold clip.
  replace ((15 - 10) / (25 - 10)) with (1 / 3) by lra.
  rewrite Rmax_left by lra. rewrite Rmin_left by lra.
  simpl. rewrite Rabs_R0.
  repeat f_equal; try lra.
  unfold lane_rank. simpl. lra.
Qed.

(** ** The delayed-action stepper *)

Lemma Int_part_0 : Int_part 0 = 0%Z.
Proof. symmetry. apply Int_part_spec. simpl. lra. Qed.

Lemma Int_part_IZR (z : Z) : Int_part (IZR z) = z.
Proof. symmetry. apply Int_part_spec. lra. Qed.

Lemma Int_part_nonneg (x : R) : 0 <= x -> (0 <= Int_part x)%Z.
Proof.
  intros Hx. destruct (base_Int_part x) as [_ H].
  apply Z.lt_succ_r. apply lt_IZR. rewrite succ_IZR. lra.
Qed.

Lemma Int_part_neg (x : R) : x < 0 -> (Int_part x < 0)%Z.
Proof.
  intros Hx. destruct (base_Int_part x) as [H _]. apply lt_IZR. lra.
Qed.

(** [int] and the floor give [range] the same number of rounds. *)
Lemma py_int_rounds (x : R) : Z.to_nat (py_int x) = Z.to_nat (Int_part x).
Proof.
  unfold py_int. destruct (decide (0 <= x)) as [H|H]; [reflexivity|].
  assert (x < 0) as Hx by lra.
  pose proof (Int_part_neg x Hx).
  assert (0 <= - x) as Hx' by lra.
  pose proof (Int_part_nonneg (- x) Hx').
  rewrite !Z2Nat.nonpos; lia.
Qed.

Lemma py_int_floor (x : R) : 0 <= x -> py_int x = Int_part x.
Proof. intros H. unfold py_int. destruct (decide (0 <= x)); [reflexivity|lra]. Qed.

Lemma elapse_loop_iter `{Collaborators} (n : nat) (e : Env) (f : R) :
  get_num (config e) "simulation_frequency" = Some f ->
  (n <> 0%nat -> f <> 0) ->
  elapse_loop n e
  = Some (set_world
            (Nat.iter n (fun w => road_step (1 / f) (road_act w)) (world e))
            e).
Proof.
  revert e. induction n as [|n IH]; intros e Hf Hn.
  - simpl. destruct e; reflexivity.
  - assert (f <> 0) as Hf0 by (apply Hn; discriminate).
    rewrite Nat.iter_succ_r.
    cbn [elapse_loop]. simpl. rewrite Hf. simpl.
    unfold py_div. destruct (decide (f = 0)) as [H0|_]; [contradiction|].
    simpl. rewrite IH by (simpl; auto).
    reflexivity.
Qed.

(** C8: for a delay that is not negative, [elapse] runs
    [floor(delay * simulation_frequency)] rounds, each [road.act()] followed
    by [road.step(1 / simulation_frequency)].  Exactly when [reset_steering]
    is true the ego vehicle enters the loop with its steering input at 0,
    every other entry of its action and every other field as they were, and
    no other object touched; otherwise the loop starts from the world as it
    is.  Besides that and the two bookkeeping fields nothing changes, so no
    reward or termination code runs; with delay 2 and frequency 10 the loop
    runs 20 rounds. *)
Theorem elapse_ticks `{Collaborators} (delay f : R) (reset_steering : bool)
    (e : Env) :
  0 <= delay ->
  get_num (config e) "simulation_frequency" = Some f ->
  (reset_steering = true -> is_Some (vehicle e)) ->
  exists (n : nat) (w0 : World) (d : Z),
    n = Z.to_nat (Int_part (delay * f))
    /\ (0 <= f -> Z.of_nat n = Int_part (delay * f) /\ d = Int_part (delay * f))
    /\ (delay = 2 -> f = 10 -> n = 20%nat)
    /\ (reset_steering = false -> w0 = world e)
    /\ (reset_steering = true ->
        exists i v v0,
          ego e = Some i /\ objects (world e) !! i = Some v
          /\ objects w0 = <[i := v0]> (objects (world e))
          /\ road w0 = road (world e)
          /\ np_random w0 = np_random (world e)
          /\ action v0 !! "steering"%string = Some 0
          /\ (forall k, k <> "steering"%string ->
                        action v0 !! k = action v !! k)
          /\ vclass v0 = vclass v /\ position v0 = position v
          /\ heading v0 = heading v /\ speed v0 = speed v
          /\ lane_index v0 = lane_index v /\ lane v0 = lane v
          /\ crashed v0 = crashed v /\ on_road v0 = on_road v)
    /\ elapse delay reset_steering e
       = Some (mkEnv (config e)
                     (Nat.iter n (fun w => road_step (1 / f) (road_act w)) w0)
                     (controlled_vehicles e) (time e) delay d (render_mode e)).
Proof.
  intros Hdelay Hf Hego.
  set (n := Z.to_nat (Int_part (delay * f))).
  assert (Hn : Z.to_nat (py_int (delay * f)) = n) by apply py_int_rounds.
  assert (Hn0 : n <> 0%nat -> f <> 0).
  { intros Hne ->. apply Hne. subst n. rewrite Rmult_0_r, Int_part_0.
    reflexivity. }
  assert (Hfloor : 0 <= f ->
                   Z.of_nat n = Int_part (delay * f)
                   /\ py_int (delay * f) = Int_part (delay * f)).
  { intros Hf0. assert (0 <= delay * f) as Hx by (apply Rmult_le_pos; lra).
    split; [|apply py_int_floor; exact Hx].
    subst n. apply Z2Nat.id. apply Int_part_nonneg. exact Hx. }
  assert (H20 : delay = 2 -> f = 10 -> n = 20%nat).
  { intros -> ->. subst n. replace (2 * 10) with (IZR 20) by lra.
    rewrite Int_part_IZR. reflexivity. }
  destruct reset_steering.
  - destruct (Hego eq_refl) as [v Hv].
    destruct (vehicle_lookup e v Hv) as (i & Hi & Hobj).
    set (v0 := set_action (<["steering"%string := 0]> (action v)) v).
    exists n, (set_objects (<[i := v0]> (objects (world e))) (world e)),
           (py_int (delay * f)).
    split; [reflexivity|]. split; [exact Hfloor|]. split; [exact H20|].
    split; [discriminate|].
    split.
    + intros _. exists i, v, v0.
      split; [exact Hi|]. split; [exact Hobj|].
      split; [reflexivity|]. split; [reflexivity|]. split; [reflexivity|].
      split; [apply lookup_insert_eq|].
      split; [intros k Hk; apply lookup_insert_ne; congruence|].
      repeat split; reflexivity.
    + unfold elapse. cbv zeta.
      rewrite (update_vehicle_run _ (set_delay delay e) i v Hi Hobj).
      simpl. rewrite Hf. simpl.
      rewrite Hn. rewrite (elapse_loop_iter n _ f) by (simpl; auto).
      reflexivity.
  - exists n, (world e), (py_int (delay * f)).
    split; [reflexivity|]. split; [exact Hfloor|]. split; [exact H20|].
    split; [reflexivity|]. split; [discriminate|].
    unfold elapse. simpl. rewrite Hf. simpl.
    rewrite Hn. rewrite (elapse_loop_iter n _ f) by (simpl; auto).
    reflexivity.
Qed.

Lemma sample_frequency :
  get_num (config sample_env_10hz) "simulation_frequency" = Some 10.
Proof. reflexivity. Qed.

Lemma steering_frequency :
  get_num (config steering_env) "simulation_frequency" = Some 10.
Proof. reflexivity. Qed.

Lemma counting_rounds (n : nat) (w : World) (dt : R) :
  objects (Nat.iter n (fun w => @road_step counting_collaborators dt
                                  (@road_act counting_collaborators w)) w)
  = objects w
  /\ np_random (Nat.iter n (fun w => @road_step counting_collaborators dt
                                      (@road_act counting_collaborators w)) w)
     = (N.of_nat n + np_random w)%N.
Proof.
  induction n as [|n [IH1 IH2]]; [split; reflexivity|].
  rewrite Nat.iter_succ.
  set (w1 := Nat.iter n _ w) in *.
  split; [exact IH1|].
  change (N.succ (np_random w1) = (N.of_nat (S n) + np_random w)%N).
  rewrite IH2. lia.
Qed.

Lemma elapse_ticks_witness :
  exists e' v',
    @elapse counting_collaborators 2 true steering_env = Some e'
    /\ np_random (world e') = 20%N
    /\ vehicle e' = Some v'
    /\ action steering_vehicle !! "steering"%string = Some 0.3
    /\ action v' !! "steering"%string = Some 0
    /\ action v' !! "acceleration"%string = Some 1.
Proof.
  destruct (@elapse_ticks counting_collaborators 2 10 true steering_env
              ltac:(lra) steering_frequency
              (fun _ => ex_intro _ steering_vehicle eq_refl))
    as (n & w0 & d & _ & _ & H20 & _ & Hreset & Hrun).
  destruct (Hreset eq_refl)
    as (i & v & v0 & Hi & Hobj & Hobjs & _ & Hrng & Hsteer & Hother & _).
  injection Hi as <-. injection Hobj as <-.
  rewrite (H20 eq_refl eq_refl) in Hrun.
  destruct (counting_rounds 20 w0 (1 / 10)) as [Hobjects Hrandom].
  eexists _, v0. split; [exact Hrun|].
  split; [cbn [world]; rewrite Hrandom, Hrng; reflexivity|].
  split; [unfold vehicle, ego; cbn [world controlled_vehicles];
          rewrite Hobjects, Hobjs; apply lookup_insert_eq|].
  split; [reflexivity|]. split; [exact Hsteer|].
  rewrite Hother by discriminate. reflexivity.
Defined.

(** ** The right-lane term *)



Lemma sample_neighbor_count :
  (1 <= Z.of_nat
          (length (all_side_lanes (network (road (world sample_env)))
                                  (lane_index sample_vehicle))))%Z.
Proof. simpl. lia. Qed.



Lemma misplaced_forward_speed :
  speed misplaced_vehicle * cos (heading misplaced_vehicle) = 15.
Proof. simpl. rewrite cos_0. lra. Qed.


(** ** The default weights *)

Lemma default_config_updated (base : Config) (key : string) (x : value) :
  default_config_update !! key = Some x -> default_config base !! key = Some x.
Proof. intros H. unfold default_config. apply lookup_union_Some_l. exact H. Qed.

Lemma default_config_inherited (base : Config) (key : string) :
  default_config_update !! key = None ->
  default_config base !! key = base !! key.
Proof. intros H. unfold default_config. apply lookup_union_r. exact H. Qed.

Lemma rewards_get_set_other (rewards : Rewards) (name other : string) (x : R) :
  name <> other ->
  rewards_get (rewards_set rewards name x) other = rewards_get rewards other.
Proof.
  intros Hne. induction rewards as [|[k y] rest IH]; [reflexivity|].
  simpl. destruct (decide (k = other)) as [->|Hk].
  - destruct (decide (other = name)) as [->|_]; [contradiction|reflexivity].
  - exact IH.
Qed.

Lemma rewards_get_set_same (rewards : Rewards) (name : string) (x : R) :
  name ∈ rewards.*1 ->
  rewards_get (rewards_set rewards name x) name = Some x.
Proof.
  induction rewards as [|[k y] rest IH]; simpl; intros H.
  - inversion H.
  - destruct (decide (k = name)) as [_|Hk]; [reflexivity|].
    apply IH. apply elem_of_cons in H as [H|H]; [congruence|exact H].
Qed.


Lemma weighted_sum_from_zero_weight (cfg : Config) (name : string)
    (rewards : Rewards) (x acc : R) :
  get_weight cfg name = Some 0 ->
  weighted_sum_from cfg acc (rewards_set rewards name x)
  = weighted_sum_from cfg acc rewards.
Proof.
  intros Hw. revert acc. induction rewards as [|[k y] rest IH]; intros acc.
  - reflexivity.
  - simpl. destruct (decide (k = name)) as [->|_].
    + rewrite Hw. simpl. rewrite !Rmult_0_l. apply IH.
    + destruct (get_weight cfg k); simpl; [apply IH | reflexivity].
Qed.



Lemma blend_zero_weight (cfg : Config) (name : string) (rewards : Rewards)
    (x : R) :
  get_weight cfg name = Some 0 ->
  name <> "on_road_reward"%string ->
  blend cfg (rewards_set rewards name x) = blend cfg rewards.
Proof.
  intros Hw Hne. unfold blend, weighted_sum.
  rewrite weighted_sum_from_zero_weight by exact Hw.
  rewrite rewards_get_set_other by exact Hne. reflexivity.
Qed.

(** C9: when the inherited defaults bring no entry for [heading_penalty],
    [lane_centering] or [on_road_reward], the default configuration has none
    either and [config.get(name, 0)] weighs the three terms with 0: the
    scalar reward is the same whatever the heading penalty and the
    lane-centering term are, and the on-road term leaves the weighted sum as
    it is and enters the reward as the last factor only. *)
Theorem default_unweighted_terms (base : Config) :
  base !! "heading_penalty" = None ->
  base !! "lane_centering" = None ->
  base !! "on_road_reward" = None ->
  let cfg := default_config base in
  (forall name,
     name ∈ ["heading_penalty"; "lane_centering"; "on_road_reward"]%string ->
     cfg !! name = None /\ get_weight cfg name = Some 0)
  /\ (forall rewards x,
        blend cfg (rewards_set rewards "heading_penalty" x)
        = blend cfg rewards)
  /\ (forall rewards x,
        blend cfg (rewards_set rewards "lane_centering" x)
        = blend cfg rewards)
  /\ (forall rewards x,
        weighted_sum cfg (rewards_set rewards "on_road_reward" x)
        = weighted_sum cfg rewards)
  /\ (forall rewards x,
        "on_road_reward"%string ∈ rewards.*1 ->
        blend cfg (rewards_set rewards "on_road_reward" x)
        = (fun scaled => scaled * x)
            <$> (weighted_sum cfg rewards ≫= normalize cfg)).
Proof.
  intros Hh Hl Ho cfg.
  assert (Hnone : forall name,
    name ∈ ["heading_penalty"; "lane_centering"; "on_road_reward"]%string ->
    cfg !! name = None /\ get_weight cfg name = Some 0).
  { intros name H.
    assert (cfg !! name = None) as Hcfg.
    { subst cfg.
      repeat (apply elem_of_cons in H as [->|H];
              [rewrite default_config_inherited by reflexivity; assumption|]).
      inversion H. }
    split; [exact Hcfg|]. unfold get_weight. rewrite Hcfg. simpl.
    reflexivity. }
  split; [exact Hnone|].
  split; [intros; apply blend_zero_weight;
          [apply Hnone; set_solver | discriminate]|].
  split; [intros; apply blend_zero_weight;
          [apply Hnone; set_solver | discriminate]|].
  assert (Hsum : forall rewards x,
    weighted_sum cfg (rewards_set rewards "on_road_reward" x)
    = weighted_sum cfg rewards).
  { intros. unfold weighted_sum. apply weighted_sum_from_zero_weight.
    apply Hnone. set_solver. }
  split; [exact Hsum|].
  intros rewards x Hin. unfold blend. rewrite Hsum.
  rewrite rewards_get_set_same by exact Hin.
  clearbody cfg.
  destruct (weighted_sum cfg rewards) as [total|]; [|reflexivity].
  cbn [mbind option_bind].
  destruct (normalize cfg total); reflexivity.
Qed.

Lemma default_unweighted_terms_witness :
  get_weight (default_config sample_base_config) "heading_penalty" = Some 0
  /\ get_weight (default_config sample_base_config) "lane_centering" = Some 0
  /\ get_weight (default_config sample_base_config) "on_road_reward" = Some 0.
Proof.
  pose proof (proj1 (default_unweighted_terms sample_base_config
                       eq_refl eq_refl eq_refl)) as H.
  split; [apply H; set_solver|].
  split; apply H; set_solver.
Defined.

Lemma default_speed_range (base : Config) :
  default_config base !! "reward_speed_range" ≫= as_range = Some (10, 25).
Proof.
  rewrite (default_config_updated base "reward_speed_range"
             (VList [VInt 10; VInt 25])) by reflexivity.
  reflexivity.
Qed.






Lemma slow_forward_speed : speed slow_vehicle * cos (heading slow_vehicle) < 2.
Proof. simpl. rewrite cos_0. lra. Qed.








(** ** The scene populator *)

Lemma alloc_fresh (v : Vehicle) (w : World) :
  objects w !! (alloc v w).1 = None.
Proof. simpl. apply not_elem_of_dom. apply is_fresh. Qed.

Lemma create_others_spec `{Collaborators} (cls : VehicleType) (n : nat)
    (e e' : Env) :
  create_others cls n e = Some e' ->
  exists new : list oid,
    length new = n
    /\ vehicles (road (world e')) = vehicles (road (world e)) ++ new
    /\ controlled_vehicles e' = controlled_vehicles e
    /\ config e' = config e
    /\ NoDup new
    /\ (forall i, i ∈ new -> objects (world e) !! i = None)
    /\ (forall i v, objects (world e) !! i = Some v ->
                    objects (world e') !! i = Some v)
    /\ (forall i, i ∈ new ->
                  exists v, objects (world e') !! i = Some v
                            /\ built_as_traffic v).
Proof.
  revert e. induction n as [|n IH]; intros e Hrun.
  - injection Hrun as <-. exists [].
    split; [reflexivity|]. split; [symmetry; apply app_nil_r|].
    split; [reflexivity|]. split; [reflexivity|].
    split; [constructor|].
    split; [intros i Hi; inversion Hi|].
    split; [auto|]. intros i Hi. inversion Hi.
  - cbn [create_others] in Hrun.
    destruct (get_num (config e) "vehicles_density") as [d|]; [|discriminate].
    simpl in Hrun.
    destruct (py_div 1 d) as [spacing|]; [|discriminate]. simpl in Hrun.
    destruct (create_random_of cls (world e) (VFloat spacing)) as [v0 g0] eqn:Hcr.
    destruct (randomize_behavior v0 g0) as [v g] eqn:Hrb.
    set (i := fresh (dom (objects (world e)))) in *.
    assert (Hfresh : objects (world e) !! i = None)
      by (apply not_elem_of_dom, is_fresh).
    apply IH in Hrun
      as (new & Hlen & Hveh & Hctrl & Hcfg & Hnd & Hnone & Hkeep & Hkind).
    simpl in *.
    assert (Hi : objects (world e') !! i = Some v)
      by (apply Hkeep; apply lookup_insert_eq).
    exists (i :: new). repeat split.
    + simpl. rewrite Hlen. reflexivity.
    + rewrite Hveh, <- app_assoc. reflexivity.
    + exact Hctrl.
    + exact Hcfg.
    + constructor; [|exact Hnd]. intros Hin. apply Hnone in Hin.
      rewrite lookup_insert_eq in Hin. discriminate.
    + intros j Hj. apply elem_of_cons in Hj as [->|Hj]; [exact Hfresh|].
      apply Hnone in Hj. apply lookup_insert_None in Hj as [Hj _]. exact Hj.
    + intros j vj Hj. apply Hkeep. rewrite lookup_insert_ne; [exact Hj|].
      intros <-. rewrite Hfresh in Hj. discriminate.
    + intros j Hj. apply elem_of_cons in Hj as [->|Hj]; [|apply Hkind, Hj].
      exists v. split; [exact Hi|].
      exists cls, (world e), (VFloat spacing), g0.
      rewrite Hcr. simpl. rewrite Hrb. reflexivity.
Qed.

Lemma create_others_total `{Collaborators} (cls : VehicleType) (n : nat)
    (e : Env) (d : R) :
  get_num (config e) "vehicles_density" = Some d -> d <> 0 ->
  is_Some (create_others cls n e).
Proof.
  intros Hd Hd0. revert e Hd. induction n as [|n IH]; intros e Hd.
  - eexists. reflexivity.
  - cbn [create_others]. rewrite Hd. simpl.
    unfold py_div. destruct (decide (d = 0)) as [?|_]; [contradiction|].
    simpl.
    destruct (create_random_of cls (world e) (VFloat (1 / d))) as [v0 g0].
    destruct (randomize_behavior v0 g0) as [v g].
    apply IH. exact Hd.
Qed.

Lemma create_groups_spec `{Collaborators} (cls : VehicleType)
    (sizes : list Z) (e e' : Env) :
  create_groups cls sizes e = Some e' ->
  exists groups : list (oid * list oid),
    Forall2 (fun g s => length g.2 = Z.to_nat s) groups sizes
    /\ vehicles (road (world e'))
       = vehicles (road (world e)) ++ concat (map group_members groups)
    /\ controlled_vehicles e' = controlled_vehicles e ++ groups.*1
    /\ config e' = config e
    /\ NoDup (concat (map group_members groups))
    /\ (forall i, i ∈ concat (map group_members groups) ->
                  objects (world e) !! i = None)
    /\ (forall i v, objects (world e) !! i = Some v ->
                    objects (world e') !! i = Some v)
    /\ (forall g, g ∈ groups ->
          (exists v, objects (world e') !! g.1 = Some v
                     /\ built_as_controlled v)
          /\ forall t, t ∈ g.2 ->
               exists v, objects (world e') !! t = Some v
                         /\ built_as_traffic v).
Proof.
  revert e. induction sizes as [|others rest IH]; intros e Hrun.
  - injection Hrun as <-. exists []. simpl.
    rewrite !app_nil_r. repeat split; auto.
    + constructor.
    + intros i Hi. inversion Hi.
    + inversion H0.
    + inversion H0.
  - cbn [create_groups] in Hrun.
    destruct (config e !! "initial_lane_id") as [lane_id|]; [|discriminate].
    simpl in Hrun.
    destruct (config e !! "ego_spacing") as [spacing|]; [|discriminate].
    simpl in Hrun.
    destruct (Vehicle_create_random (world e) (VInt 25) lane_id spacing)
      as [v0 g0] eqn:Hcr.
    simpl in Hrun.
    set (i := fresh (dom (objects (world e)))) in *.
    set (v := action_vehicle_class (set_np_random g0 (world e)) (position v0)
                (heading v0) (speed v0)) in *.
    assert (Hfresh : objects (world e) !! i = None)
      by (apply not_elem_of_dom, is_fresh).
    match type of Hrun with
    | (create_others _ _ ?e1 ≫= _) = _ =>
        destruct (create_others cls (Z.to_nat others) e1) as [e2|] eqn:Hothers;
        [|discriminate]
    end.
    simpl in Hrun.
    apply create_others_spec in Hothers
      as (new & Hlen & Hveh & Hctrl & Hcfg & Hnd & Hnone & Hkeep & Hkind).
    apply IH in Hrun
      as (groups & Hsizes & Hveh' & Hctrl' & Hcfg' & Hnd' & Hnone' & Hkeep'
          & Hkind').
    simpl in *.
    assert (Hi2 : objects (world e2) !! i = Some v)
      by (apply Hkeep; apply lookup_insert_eq).
    exists ((i, new) :: groups). simpl. repeat split.
    + constructor; [exact Hlen | exact Hsizes].
    + rewrite Hveh', Hveh. unfold group_members at 2. simpl.
      rewrite <- !app_assoc. reflexivity.
    + rewrite Hctrl', Hctrl, <- app_assoc. reflexivity.
    + rewrite Hcfg', Hcfg. reflexivity.
    + unfold group_members at 1. simpl. constructor.
      * intros Hin. apply elem_of_app in Hin as [Hin|Hin].
        -- apply Hnone in Hin. rewrite lookup_insert_eq in Hin. discriminate.
        -- apply Hnone' in Hin. rewrite Hi2 in Hin. discriminate.
      * apply NoDup_app. split; [exact Hnd|]. split; [|exact Hnd'].
        intros j Hj Hj'. apply Hkind in Hj as (vj & Hj & _).
        apply Hnone' in Hj'. rewrite Hj in Hj'. discriminate.
    + intros j Hj. unfold group_members at 1 in Hj. simpl in Hj.
      apply elem_of_cons in Hj as [->|Hj]; [exact Hfresh|].
      apply elem_of_app in Hj as [Hj|Hj].
      * apply Hnone in Hj. apply lookup_insert_None in Hj as [Hj _]. exact Hj.
      * apply Hnone' in Hj.
        destruct (objects (world e) !! j) as [vj|] eqn:Hobj; [|reflexivity].
        assert (j <> i) as Hne by (intros ->; rewrite Hfresh in Hobj; discriminate).
        rewrite (Hkeep j vj) in Hj; [discriminate|].
        rewrite lookup_insert_ne by auto. exact Hobj.
    + intros j vj Hj. apply Hkeep', Hkeep.
      rewrite lookup_insert_ne; [exact Hj|].
      intros <-. rewrite Hfresh in Hj. discriminate.
    + apply elem_of_cons in H0 as [->|Hg]; [|apply Hkind', Hg].
      simpl. exists v. split; [apply Hkeep', Hi2|].
      eexists _, _, _, _. reflexivity.
    + apply elem_of_cons in H0 as [->|Hg]; [|apply Hkind', Hg].
      simpl. intros t Ht. apply Hkind in Ht as (vt & Hvt & Hbuilt).
      exists vt. split; [apply Hkeep', Hvt | exact Hbuilt].
Qed.

Lemma create_groups_total `{Collaborators} (cls : VehicleType)
    (sizes : list Z) (e : Env) (d : R) :
  is_Some (config e !! "initial_lane_id") ->
  is_Some (config e !! "ego_spacing") ->
  get_num (config e) "vehicles_density" = Some d -> d <> 0 ->
  is_Some (create_groups cls sizes e).
Proof.
  intros Hl Hs Hd Hd0. revert e Hl Hs Hd.
  induction sizes as [|others rest IH]; intros e [lane_id Hl] [spacing Hs] Hd.
  - eexists. reflexivity.
  - cbn [create_groups]. rewrite Hl, Hs. simpl.
    destruct (Vehicle_create_random (world e) (VInt 25) lane_id spacing)
      as [v0 g0].
    simpl.
    match goal with
    | |- is_Some (create_others _ _ ?e1 ≫= _) =>
        destruct (create_others_total cls (Z.to_nat others) e1 d Hd Hd0)
          as [e2 He2];
        pose proof (create_others_spec _ _ _ _ He2)
          as (_ & _ & _ & _ & Hcfg & _);
        rewrite He2
    end.
    simpl in *. apply IH; rewrite Hcfg; eauto.
Qed.

Lemma sum_replicate (n : nat) (a acc : Z) :
  foldr Z.add acc (replicate n a) = (Z.of_nat n * a + acc)%Z.
Proof. induction n as [|n IH]; simpl; [reflexivity|]. rewrite IH. lia. Qed.

Lemma near_split_spec (x bins : Z) :
  (0 <= x)%Z -> (1 <= bins)%Z ->
  exists sizes,
    near_split x bins = Some sizes
    /\ length sizes = Z.to_nat bins
    /\ foldr Z.add 0%Z sizes = x
    /\ Forall (fun s => (0 <= s)%Z) sizes
    /\ (forall k s, sizes !! k = Some s ->
                    s = if decide (Z.of_nat k < x mod bins)%Z
                        then (x / bins + 1)%Z else (x / bins)%Z).
Proof.
  intros Hx Hb. unfold near_split.
  destruct (decide (bins = 0%Z)) as [?|_]; [lia|].
  pose proof (Z.mod_pos_bound x bins ltac:(lia)) as Hr.
  pose proof (Z.div_pos x bins Hx ltac:(lia)) as Hq.
  pose proof (Z.div_mod x bins ltac:(lia)) as Hdm.
  eexists. split; [reflexivity|].
  split; [rewrite length_app, !length_replicate; lia|].
  split; [rewrite foldr_app, !sum_replicate, !Z2Nat.id by lia; nia|].
  split.
  - apply Forall_app. split; apply Forall_replicate; lia.
  - intros k s Hk. destruct (decide (Z.of_nat k < x mod bins)%Z) as [Hlt|Hge].
    + rewrite lookup_app_l in Hk by (rewrite length_replicate; lia).
      apply lookup_replicate in Hk as [-> _]. reflexivity.
    + rewrite lookup_app_r in Hk by (rewrite length_replicate; lia).
      apply lookup_replicate in Hk as [-> _]. reflexivity.
Qed.

Lemma groups_lengths (groups : list (oid * list oid)) (sizes : list Z) :
  Forall2 (fun g s => length g.2 = Z.to_nat s) groups sizes ->
  Forall (fun s => (0 <= s)%Z) sizes ->
  length groups = length sizes
  /\ Z.of_nat (length (concat (map group_members groups)))
     = (Z.of_nat (length sizes) + foldr Z.add 0 sizes)%Z
  /\ Z.of_nat (length (concat groups.*2)) = foldr Z.add 0%Z sizes.
Proof.
  induction 1 as [|g s groups sizes Hg _ IH]; intros Hpos.
  - simpl. auto.
  - apply Forall_cons in Hpos as [Hs Hpos].
    destruct (IH Hpos) as (H1 & H2 & H3).
    change (concat (map group_members (g :: groups)))
      with (group_members g ++ concat (map group_members groups)).
    change (concat (g :: groups).*2) with (g.2 ++ concat groups.*2).
    rewrite !length_app. unfold group_members at 1. cbn [length foldr].
    repeat split; lia.
Qed.

(** C7: after the populator has run at reset, the road carries
    [controlled_vehicles + vehicles_count] vehicles, no vehicle twice; the
    controlled-vehicle list has [controlled_vehicles] entries, the controlled
    vehicle of each group in group order, each built by the action type's
    vehicle class; the traffic of a group follows its controlled vehicle, and
    the [vehicles_count] traffic vehicles are spread as evenly as possible,
    the first groups taking the remainder. *)
Theorem reset_population `{Collaborators} (e : Env) (count controlled : Z)
    (path : value) (cls : VehicleType) (density : R) :
  is_Some (config e !! "lanes_count") ->
  is_Some (config e !! "show_trajectories") ->
  config e !! "other_vehicles_type" = Some path ->
  class_from_path path = Some cls ->
  get_int (config e) "vehicles_count" = Some count ->
  get_int (config e) "controlled_vehicles" = Some controlled ->
  is_Some (config e !! "initial_lane_id") ->
  is_Some (config e !! "ego_spacing") ->
  get_num (config e) "vehicles_density" = Some density ->
  density <> 0 ->
  (0 <= count)%Z ->
  (1 <= controlled)%Z ->
  exists e' (groups : list (oid * list oid)),
    _reset e = Some e'
    /\ vehicles (road (world e')) = concat (map group_members groups)
    /\ controlled_vehicles e' = groups.*1
    /\ NoDup (vehicles (road (world e')))
    /\ Z.of_nat (length (vehicles (road (world e'))))
       = (controlled + count)%Z
    /\ Z.of_nat (length (controlled_vehicles e')) = controlled
    /\ Z.of_nat (length (concat groups.*2)) = count
    /\ (forall k g,
          groups !! k = Some g ->
          Z.of_nat (length g.2)
          = if decide (Z.of_nat k < count mod controlled)%Z
            then (count / controlled + 1)%Z else (count / controlled)%Z)
    /\ (forall g, g ∈ groups ->
          (exists v, objects (world e') !! g.1 = Some v
                     /\ built_as_controlled v)
          /\ forall t, t ∈ g.2 ->
               exists v, objects (world e') !! t = Some v
                         /\ built_as_traffic v).
Proof.
  intros [lanes Hlanes] [show Hshow] Hpath Hcls Hcount Hctrl Hlane Hspacing
         Hdens Hdens0 Hcount0 Hctrl1.
  destruct (near_split_spec count controlled Hcount0 Hctrl1)
    as (sizes & Hsplit & Hlen & Hsum & Hpos & Hsize).
  unfold _reset, _create_road. rewrite Hlanes, Hshow. simpl.
  unfold _create_vehicles. simpl.
  rewrite Hpath. simpl. rewrite Hcls. simpl. rewrite Hcount. simpl.
  rewrite Hctrl. simpl. rewrite Hsplit. simpl.
  match goal with
  | |- exists _ _, create_groups _ _ ?e1 = _ /\ _ =>
      destruct (create_groups_total cls sizes e1 density
                  Hlane Hspacing Hdens Hdens0) as [e' He']
  end.
  pose proof (create_groups_spec _ _ _ _ He')
    as (groups & Hsizes & Hveh & Hc & _ & Hnd & _ & _ & Hkind).
  simpl in Hveh, Hc.
  destruct (groups_lengths groups sizes Hsizes Hpos) as (Hl1 & Hl2 & Hl3).
  exists e', groups. split; [exact He'|].
  split; [exact Hveh|]. split; [exact Hc|].
  split; [rewrite Hveh; exact Hnd|].
  split; [rewrite Hveh, Hl2, Hlen, Hsum; lia|].
  split; [rewrite Hc, length_fmap, Hl1, Hlen; lia|].
  split; [rewrite Hl3; exact Hsum|].
  split; [|exact Hkind].
  intros k g Hk.
  destruct (Forall2_lookup_l _ _ _ _ _ Hsizes Hk) as (s & Hs & Hgs).
  rewrite Hgs. rewrite <- (Hsize k s Hs).
  apply Z2Nat.id. eapply Forall_lookup_1 in Hpos; [exact Hpos | exact Hs].
Qed.

Lemma sample_density :
  get_num (config sample_env) "vehicles_density" = Some 0.7.
Proof. reflexivity. Qed.

Lemma reset_population_witness :
  exists e',
    @_reset sample_collaborators sample_env = Some e'
    /\ length (vehicles (road (world e'))) = 21%nat
    /\ length (controlled_vehicles e') = 1%nat.
Proof.
  destruct (@reset_population sample_collaborators sample_env 20 1
              (VStr "highway_env.vehicle.behavior.IDMVehicle")
              "highway_env.vehicle.behavior.IDMVehicle" 0.7
              (ex_intro _ _ eq_refl) (ex_intro _ _ eq_refl) eq_refl eq_refl
              eq_refl eq_refl (ex_intro _ _ eq_refl) (ex_intro _ _ eq_refl)
              sample_density ltac:(lra) ltac:(lia) ltac:(lia))
    as (e' & groups & Hrun & _ & _ & _ & Hroad & Hctrl & _).
  exists e'. split; [exact Hrun|]. split; lia.
Defined.

(** ** The crashed flag *)

Lemma terminal_condition_iff (v : Vehicle) (lo hi t : R) :
  terminal_condition v (lmap (forward_speed v) (lo, hi) (0, 1)) t = true
  <-> Rabs (heading v) > PI / 2
      \/ ((speed v * cos (heading v) - lo) / (hi - lo) < -0.1 /\ t > 1).
Proof.
  unfold terminal_condition, forward_speed. rewrite lmap_unit.
  rewrite orb_true_iff, andb_true_iff, !bool_decide_eq_true.
  replace (0.5 * PI) with (PI / 2) by lra. reflexivity.
Qed.










(** * Further properties of the code *)

(** ** Failure and frame of [_rewards] *)

Lemma rewards_inv (a : Action) (e e' : Env) (rewards : Rewards) :
  _rewards a e = Some (rewards, e') ->
  exists v range,
    vehicle e = Some v
    /\ config e !! "reward_speed_range" ≫= as_range = Some range.
Proof.
  unfold _rewards. intros Hrun.
  destruct (vehicle e) as [v|]; [|discriminate]. simpl in Hrun.
  destruct (config e !! "reward_speed_range" ≫= as_range) as [range|];
    [|discriminate].
  exists v, range. auto.
Qed.

(** [_rewards] raises exactly when there is no ego vehicle or
    [reward_speed_range] is missing or is no pair of numbers; in every other
    state it returns. *)
Theorem rewards_fails_iff (a : Action) (e : Env) :
  _rewards a e = None
  <-> vehicle e = None
      \/ config e !! "reward_speed_range" ≫= as_range = None.
Proof.
  split.
  - intros Hnone.
    destruct (vehicle e) as [v|] eqn:Hv; [|left; reflexivity].
    destruct (config e !! "reward_speed_range" ≫= as_range) as [range|] eqn:Hr;
      [|right; reflexivity].
    destruct (rewards_run a e v range Hv Hr) as (e' & _ & _ & _ & _ & Hrun).
    rewrite Hrun in Hnone. discriminate.
  - intros [Hv|Hr]; unfold _rewards.
    + rewrite Hv. reflexivity.
    + destruct (vehicle e); simpl; [rewrite Hr|]; reflexivity.
Qed.

(** A call of [_rewards] leaves the configuration, the clock, the road, the
    controlled-vehicle list and every vehicle object as they are, but for the
    crashed flag of the ego vehicle. *)
Theorem rewards_frame (a : Action) (e e' : Env) (rewards : Rewards) :
  _rewards a e = Some (rewards, e') ->
  config e' = config e
  /\ time e' = time e
  /\ controlled_vehicles e' = controlled_vehicles e
  /\ road (world e') = road (world e)
  /\ np_random (world e') = np_random (world e)
  /\ _delay e' = _delay e
  /\ _delayed_frequencies e' = _delayed_frequencies e
  /\ render_mode e' = render_mode e
  /\ (forall i, objects (world e) !! i = None ->
                objects (world e') !! i = None)
  /\ (forall i vi,
        objects (world e) !! i = Some vi ->
        exists vi',
          objects (world e') !! i = Some vi'
          /\ vi' = set_crashed (crashed vi') vi
          /\ (ego e <> Some i -> vi' = vi)).
Proof.
  intros Hrun. destruct (rewards_inv a e e' rewards Hrun) as (v & range & Hv & Hr).
  destruct (rewards_run a e v range Hv Hr) as (e1 & He1 & _ & _ & _ & Hrun1).
  rewrite Hrun1 in Hrun. injection Hrun as _ <-.
  destruct (terminal_condition _ _ _).
  - destruct (vehicle_lookup e v Hv) as (i0 & Hi0 & Hobj0).
    rewrite (update_vehicle_run _ e i0 v Hi0 Hobj0) in He1.
    injection He1 as <-. simpl.
    repeat split; try reflexivity.
    + intros i Hi. rewrite lookup_insert_ne; [exact Hi|].
      intros <-. rewrite Hobj0 in Hi. discriminate.
    + intros i vi Hi. destruct (decide (i0 = i)) as [<-|Hne].
      * rewrite Hobj0 in Hi. injection Hi as <-.
        exists (set_crashed true v). rewrite lookup_insert_eq.
        split; [reflexivity|]. split; [reflexivity|].
        intros Hego. contradiction.
      * exists vi. rewrite lookup_insert_ne by exact Hne.
        split; [exact Hi|]. split; [destruct vi; reflexivity | reflexivity].
  - injection He1 as <-.
    repeat split; try reflexivity; try auto.
    intros i vi Hi. exists vi. split; [exact Hi|].
    split; [destruct vi; reflexivity | reflexivity].
Qed.

Lemma rewards_frame_witness :
  config sample_env = config sample_env /\ time sample_env = time sample_env.
Proof.
  destruct (rewards_frame (DiscreteAction 0) sample_env sample_env _
              (sample_rewards (DiscreteAction 0))) as (H1 & H2 & _).
  split; [exact H1 | exact H2].
Defined.

(** Evaluating [_rewards] again on the environment it left returns the same
    terms and changes nothing more. *)
Theorem rewards_idempotent (a a2 : Action) (e e' : Env) (rewards : Rewards) :
  _rewards a e = Some (rewards, e') ->
  _rewards a2 e' = Some (rewards, e').
Proof.
  intros Hrun. destruct (rewards_inv a e e' rewards Hrun) as (v & range & Hv & Hr).
  destruct (rewards_run a e v range Hv Hr)
    as (e1 & He1 & Hv1 & Hcfg1 & Ht1 & Hrun1).
  rewrite Hrun1 in Hrun. injection Hrun as <- <-.
  set (c := terminal_condition v (lmap (forward_speed v) range (0, 1)) (time e))
    in *.
  set (v1 := if c then set_crashed true v else v) in *.
  assert (Hr1 : config e1 !! "reward_speed_range" ≫= as_range = Some range)
    by (rewrite Hcfg1; exact Hr).
  destruct (rewards_run a2 e1 v1 range Hv1 Hr1)
    as (e2 & He2 & _ & _ & _ & Hrun2).
  assert (Hc : terminal_condition v1 (lmap (forward_speed v1) range (0, 1))
                 (time e1) = c).
  { rewrite Ht1. subst v1. destruct c eqn:Hc; [|exact Hc].
    rewrite <- Hc. reflexivity. }
  rewrite Hc in He2, Hrun2.
  assert (Hroad : road (world e1) = road (world e)).
  { destruct c; [|injection He1 as <-; reflexivity].
    destruct (update_vehicle_spec (set_crashed true) e v Hv)
      as (ex & Hex & _ & _ & _ & _ & Hroad & _).
    rewrite Hex in He1. injection He1 as <-. exact Hroad. }
  assert (He21 : e2 = e1).
  { destruct c; [|injection He2 as <-; reflexivity].
    destruct (vehicle_lookup e v Hv) as (i0 & Hi0 & Hobj0).
    rewrite (update_vehicle_run _ e i0 v Hi0 Hobj0) in He1.
    injection He1 as He1.
    assert (Hi1 : ego e1 = Some i0) by (rewrite <- He1; exact Hi0).
    assert (Hobj1 : objects (world e1) !! i0 = Some (set_crashed true v))
      by (rewrite <- He1; apply lookup_insert_eq).
    rewrite (update_vehicle_run _ e1 i0 _ Hi1 Hobj1) in He2.
    injection He2 as <-. rewrite <- He1. simpl.
    rewrite insert_insert_eq. reflexivity. }
  rewrite Hrun2, He21, Hroad. f_equal. f_equal.
  subst v1. destruct c; reflexivity.
Qed.

Lemma rewards_idempotent_witness :
  exists rewards,
    _rewards (ContinuousAction []) sample_env = Some (rewards, sample_env).
Proof.
  eexists.
  exact (rewards_idempotent (DiscreteAction 0) (ContinuousAction [])
           sample_env sample_env _ (sample_rewards (DiscreteAction 0))).
Defined.

(** ** The slow-speed test *)

(** With a speed range whose ends are in order, the slow-speed test of
    [_rewards] is a threshold on the forward speed: after the first second
    a vehicle is flagged exactly when its forward speed is below
    [lo - 0.1 * (hi - lo)] (8.5 for the range [[10, 25]]) or its heading is
    beyond a quarter turn; during the first second only the heading
    counts. *)
Theorem slow_speed_threshold (a : Action) (e : Env) (v : Vehicle)
    (lo hi : R) :
  vehicle e = Some v ->
  config e !! "reward_speed_range" ≫= as_range = Some (lo, hi) ->
  lo < hi ->
  crashed v = false ->
  exists rewards e' v',
    _rewards a e = Some (rewards, e')
    /\ vehicle e' = Some v'
    /\ (time e > 1 ->
        (crashed v' = true
         <-> Rabs (heading v) > PI / 2
             \/ speed v * cos (heading v) < lo - 0.1 * (hi - lo)))
    /\ (time e <= 1 -> (crashed v' = true <-> Rabs (heading v) > PI / 2)).
Proof.
  intros Hv Hr Hlt Hc.
  destruct (rewards_run a e v (lo, hi) Hv Hr) as (e' & _ & Hv' & _ & _ & Hrun).
  pose proof (terminal_condition_iff v lo hi (time e)) as Hcond.
  set (c := terminal_condition v (lmap (forward_speed v) (lo, hi) (0, 1))
              (time e)) in *.
  assert (Hflag : crashed (if c then set_crashed true v else v) = true
                  <-> c = true).
  { destruct c; simpl; [tauto|]. rewrite Hc. tauto. }
  assert (Hscaled :
    (speed v * cos (heading v) - lo) / (hi - lo) < -0.1
    <-> speed v * cos (heading v) < lo - 0.1 * (hi - lo)).
  { set (fs := speed v * cos (heading v)).
    assert (0 < hi - lo) as Hd by lra.
    split; intros H.
    - apply (Rmult_lt_compat_r (hi - lo)) in H; [|exact Hd].
      unfold Rdiv in H. rewrite Rmult_assoc, Rinv_l in H by lra. lra.
    - apply (Rmult_lt_reg_r (hi - lo)); [exact Hd|].
      unfold Rdiv. rewrite Rmult_assoc, Rinv_l by lra. lra. }
  eexists _, e', _. split; [exact Hrun|]. split; [exact Hv'|].
  split; intros Ht; rewrite Hflag, Hcond, Hscaled.
  - split; [intros [H|[H _]]; auto | intros [H|H]; auto].
  - split; [intros [H|[_ H]]; [exact H|lra] | auto].
Qed.

Lemma slow_speed_threshold_witness :
  exists rewards e' v',
    _rewards (DiscreteAction 0) late_slow_env = Some (rewards, e')
    /\ vehicle e' = Some v'
    /\ crashed v' = true.
Proof.
  destruct (slow_speed_threshold (DiscreteAction 0) late_slow_env
              slow_vehicle 10 25 eq_refl eq_refl ltac:(lra) eq_refl)
    as (rewards & e' & v' & Hrun & Hv' & Hlate & _).
  exists rewards, e', v'. split; [exact Hrun|]. split; [exact Hv'|].
  apply Hlate; [simpl; lra|]. right.
  pose proof slow_forward_speed. lra.
Defined.

(** ** Ranges of the terms *)

Lemma neg_ratio_bounds (x d : R) :
  0 <= x -> 0 < d -> - x / d <= 0 /\ (x <= d -> -1 <= - x / d).
Proof.
  intros Hx Hd.
  assert (0 < / d) as Hinv by (apply Rinv_0_lt_compat; exact Hd).
  assert (- x / d = - (x * / d)) as -> by (unfold Rdiv; ring).
  assert (0 <= x * / d) as H0 by (apply Rmult_le_pos; lra).
  split; [lra|]. intros Hle.
  assert (x * / d <= 1); [|lra].
  apply (Rmult_le_reg_r d); [exact Hd|].
  rewrite Rmult_assoc, Rinv_l by lra. lra.
Qed.

Lemma ratio_sign (x d : R) :
  0 < d -> (x <= 0 -> x / d <= 0) /\ (0 <= x -> 0 <= x / d)
           /\ (d <= x -> 1 <= x / d).
Proof.
  intros Hd.
  assert (0 < / d) as Hinv by (apply Rinv_0_lt_compat; exact Hd).
  unfold Rdiv. repeat split; intros H.
  - assert (0 <= (- x) * / d) by (apply Rmult_le_pos; lra). lra.
  - apply Rmult_le_pos; lra.
  - apply (Rmult_le_reg_r d); [exact Hd|].
    rewrite Rmult_assoc, Rinv_l by lra. lra.
Qed.

Lemma clip_unit_bounds (x : R) : 0 <= clip x 0 1 <= 1.
Proof.
  unfold clip. split.
  - apply Rmin_glb; [apply Rmax_r | lra].
  - apply Rmin_r.
Qed.

(** Whatever the state: the heading penalty is at most 0, and at least -1
    while the heading is within a quarter turn; the speed term is at most 1,
    not negative for a forward speed that is not negative, and negative for
    a vehicle moving backwards; the stopping penalty is -0.5 or 0; the
    collision and on-road terms are 0 or 1; on a lane of positive width the
    lane-centering term is at most 0, and at least -0.1 while the vehicle is
    no further from the centre line than half the width. *)
Theorem reward_term_ranges (a : Action) (e : Env) (v : Vehicle) (lo hi : R) :
  vehicle e = Some v ->
  config e !! "reward_speed_range" ≫= as_range = Some (lo, hi) ->
  let fs := speed v * cos (heading v) in
  let offset := (local_coordinates (lane v) (position v)).2 in
  exists rewards e',
    _rewards a e = Some (rewards, e')
    /\ term rewards "heading_penalty" <= 0
    /\ (Rabs (heading v) <= PI / 2 -> -1 <= term rewards "heading_penalty")
    /\ term rewards "high_speed_reward" <= 1
    /\ (0 <= fs -> 0 <= term rewards "high_speed_reward")
    /\ (fs < 0 -> term rewards "high_speed_reward" < 0)
    /\ (term rewards "stopping_penalty" = -0.5
        \/ term rewards "stopping_penalty" = 0)
    /\ (term rewards "collision_reward" = 0
        \/ term rewards "collision_reward" = 1)
    /\ (term rewards "on_road_reward" = 0
        \/ term rewards "on_road_reward" = 1)
    /\ (0 < width (lane v) ->
        term rewards "lane_centering" <= 0
        /\ (Rabs offset <= width (lane v) / 2 ->
            -0.1 <= term rewards "lane_centering")).
Proof.
  intros Hv Hr fs offset.
  destruct (rewards_run a e v (lo, hi) Hv Hr) as (e' & _ & _ & _ & _ & Hrun).
  eexists _, e'. split; [exact Hrun|].
  unfold term, rewards_of, forward_speed. simpl. fold fs. fold offset.
  pose proof PI_RGT_0 as Hpi.
  destruct (neg_ratio_bounds (Rabs (heading v)) (0.5 * PI)
              (Rabs_pos _) ltac:(lra)) as [Hh1 Hh2].
  pose proof (clip_unit_bounds (lmap fs (lo, hi) (0, 1))) as Hclip.
  split; [exact Hh1|]. split; [intros H; apply Hh2; lra|].
  split; [destruct (decide (fs < 5)); lra|].
  split; [intros H; destruct (decide (fs < 5)); lra|].
  split; [intros H; destruct (decide (fs < 5)); lra|].
  split; [destruct (decide (fs < 2)); auto|].
  split; [destruct (crashed _); auto|].
  split; [destruct (on_road _); auto|].
  intros Hw.
  destruct (neg_ratio_bounds (Rabs offset) (width (lane v) / 2)
              (Rabs_pos _) ltac:(lra)) as [Hl1 Hl2].
  split; [lra|]. intros H. specialize (Hl2 H). lra.
Qed.

Lemma reward_term_ranges_witness :
  exists rewards e',
    _rewards (DiscreteAction 0) sample_env = Some (rewards, e')
    /\ term rewards "heading_penalty" <= 0
    /\ term rewards "high_speed_reward" <= 1.
Proof.
  destruct (reward_term_ranges (DiscreteAction 0) sample_env sample_vehicle
              10 25 sample_vehicle_is_ego sample_speed_range)
    as (rewards & e' & Hrun & H1 & _ & H2 & _).
  exists rewards, e'. auto.
Defined.

(** With a speed range that starts at 5 or above, the speed term is
    [forward_speed / 5] below forward speed 5, drops to 0 from 5 up to the
    lower end of the range, and is 1 from the upper end on: a vehicle
    crawling just below 5 scores nearly 1 where one driving at the lower end
    of the range scores 0. *)
Theorem high_speed_drop (a : Action) (e : Env) (v : Vehicle) (lo hi : R) :
  vehicle e = Some v ->
  config e !! "reward_speed_range" ≫= as_range = Some (lo, hi) ->
  5 <= lo -> lo < hi ->
  let fs := speed v * cos (heading v) in
  exists rewards e',
    _rewards a e = Some (rewards, e')
    /\ (fs < 5 -> term rewards "high_speed_reward" = fs / 5)
    /\ (5 <= fs <= lo -> term rewards "high_speed_reward" = 0)
    /\ (hi <= fs -> term rewards "high_speed_reward" = 1).
Proof.
  intros Hv Hr Hlo Hhi fs.
  destruct (rewards_run a e v (lo, hi) Hv Hr) as (e' & _ & _ & _ & _ & Hrun).
  eexists _, e'. split; [exact Hrun|].
  unfold term, rewards_of, forward_speed. simpl. fold fs.
  rewrite lmap_unit. unfold clip.
  destruct (ratio_sign (fs - lo) (hi - lo) ltac:(lra)) as (Hneg & Hpos & Hone).
  split; [|split].
  - intros H. destruct (decide (fs < 5)); [reflexivity|lra].
  - intros [H1 H2]. destruct (decide (fs < 5)); [lra|].
    rewrite Rmax_right by (apply Hneg; lra). apply Rmin_left. lra.
  - intros H. destruct (decide (fs < 5)); [lra|].
    rewrite Rmax_left by (specialize (Hone ltac:(lra)); lra).
    apply Rmin_right. apply Hone. lra.
Qed.

Lemma high_speed_drop_witness :
  exists rewards e',
    _rewards (DiscreteAction 0) slow_env = Some (rewards, e')
    /\ term rewards "high_speed_reward" = 1 / 5.
Proof.
  destruct (high_speed_drop (DiscreteAction 0) slow_env slow_vehicle 10 25
              eq_refl eq_refl ltac:(lra) ltac:(lra))
    as (rewards & e' & Hrun & Hslow & _).
  exists rewards, e'. split; [exact Hrun|].
  rewrite Hslow; simpl; rewrite cos_0; lra.
Defined.

(** ** The blend, step by step *)

Lemma blend_run (cfg : Config) (w : string -> R) (flag : value)
    (rewards : Rewards) (on : R) :
  (forall name, name ∈ rewards.*1 -> get_weight cfg name = Some (w name)) ->
  cfg !! "normalize_reward" = Some flag ->
  (truthy flag = true ->
   get_num cfg "collision_reward" = Some (w "collision_reward"%string)
   /\ get_num cfg "high_speed_reward" = Some (w "high_speed_reward"%string)
   /\ get_num cfg "right_lane_reward" = Some (w "right_lane_reward"%string)) ->
  rewards_get rewards "on_road_reward" = Some on ->
  let total := fold_left (fun s p => s + w p.1 * p.2) rewards 0 in
  blend cfg rewards
  = Some ((if truthy flag
           then (total - w "collision_reward"%string)
                / (w "high_speed_reward"%string + w "right_lane_reward"%string
                   - w "collision_reward"%string)
           else total) * on).
Proof.
  intros Hw Hflag Hkeys Hon total. unfold blend, weighted_sum.
  rewrite (weighted_sum_from_fold cfg w rewards 0 Hw).
  cbn [mbind option_bind]. unfold normalize. rewrite Hflag.
  cbn [mbind option_bind].
  destruct (truthy flag).
  - destruct (Hkeys eq_refl) as (H1 & H2 & H3). rewrite H1, H2, H3.
    cbn [mbind option_bind]. rewrite Hon. cbn [mbind option_bind].
    rewrite lmap_unit. reflexivity.
  - cbn [mbind option_bind]. rewrite Hon. reflexivity.
Qed.

(** ** More on the delayed-action stepper *)

Lemma elapse_run_plain `{Collaborators} (delay f : R) (e : Env) :
  get_num (config e) "simulation_frequency" = Some f ->
  elapse delay false e
  = Some (mkEnv (config e)
                (Nat.iter (Z.to_nat (Int_part (delay * f)))
                          (fun w => road_step (1 / f) (road_act w)) (world e))
                (controlled_vehicles e) (time e) delay (py_int (delay * f))
                (render_mode e)).
Proof.
  intros Hf. unfold elapse. cbv zeta. cbn [mbind option_bind].
  change (config (set_delay delay e)) with (config e). rewrite Hf.
  cbn [mbind option_bind]. simpl _delay. simpl _delayed_frequencies.
  rewrite py_int_rounds.
  rewrite (elapse_loop_iter _ _ f).
  - reflexivity.
  - exact Hf.
  - intros Hne ->. apply Hne. rewrite Rmult_0_r, Int_part_0. reflexivity.
Qed.

Lemma Int_part_below_one (x : R) : x < 1 -> (Int_part x <= 0)%Z.
Proof.
  intros Hx. destruct (base_Int_part x) as [H _].
  assert (Int_part x < 1)%Z; [apply lt_IZR; lra | lia].
Qed.

(** A delay shorter than one physics tick runs no round at all: the world is
    left as it is and only the two bookkeeping fields change.  This covers a
    delay of zero, a negative delay and a frequency of zero, for which
    [1 / simulation_frequency] is never evaluated. *)
Theorem elapse_no_round `{Collaborators} (delay f : R) (e : Env) :
  get_num (config e) "simulation_frequency" = Some f ->
  delay * f < 1 ->
  exists d,
    elapse delay false e
    = Some (mkEnv (config e) (world e) (controlled_vehicles e) (time e)
                  delay d (render_mode e))
    /\ (0 <= delay * f -> d = 0%Z).
Proof.
  intros Hf Hlt. exists (py_int (delay * f)). split.
  - rewrite (elapse_run_plain delay f e Hf).
    rewrite Z2Nat.nonpos by (apply Int_part_below_one; exact Hlt).
    reflexivity.
  - intros H0. rewrite py_int_floor by exact H0.
    pose proof (Int_part_below_one _ Hlt).
    pose proof (Int_part_nonneg _ H0). lia.
Qed.

Lemma elapse_no_round_witness :
  exists d,
    @elapse counting_collaborators (1 / 20) false sample_env_10hz
    = Some (mkEnv (config sample_env_10hz) (world sample_env_10hz)
                  (controlled_vehicles sample_env_10hz) (time sample_env_10hz)
                  (1 / 20) d (render_mode sample_env_10hz)).
Proof.
  destruct (@elapse_no_round counting_collaborators (1 / 20) 10
              sample_env_10hz sample_frequency ltac:(lra)) as (d & Hrun & _).
  exists d. exact Hrun.
Defined.

(** [elapse] raises exactly when [simulation_frequency] is missing or no
    number, or when the steering is to be reset and there is no ego vehicle;
    it never divides by zero. *)
Theorem elapse_fails_iff `{Collaborators} (delay : R) (reset : bool)
    (e : Env) :
  elapse delay reset e = None
  <-> get_num (config e) "simulation_frequency" = None
      \/ (reset = true /\ vehicle e = None).
Proof.
  split.
  - intros Hnone.
    destruct (get_num (config e) "simulation_frequency") as [f|] eqn:Hf;
      [|left; reflexivity].
    right. destruct reset.
    + split; [reflexivity|].
      destruct (vehicle e) as [v|] eqn:Hv; [|reflexivity]. exfalso.
      destruct (vehicle_lookup e v Hv) as (i & Hi & Hobj).
      unfold elapse in Hnone. cbv zeta in Hnone.
      rewrite (update_vehicle_run _ (set_delay delay e) i v Hi Hobj) in Hnone.
      cbn [mbind option_bind] in Hnone.
      change (config (set_world _ (set_delay delay e))) with (config e) in Hnone.
      rewrite Hf in Hnone. cbn [mbind option_bind] in Hnone.
      rewrite (elapse_loop_iter _ _ f) in Hnone.
      * discriminate.
      * exact Hf.
      * simpl. rewrite py_int_rounds. intros Hne ->. apply Hne.
        rewrite Rmult_0_r, Int_part_0. reflexivity.
    + rewrite (elapse_run_plain delay f e Hf) in Hnone. discriminate.
  - intros [Hf|[-> Hv]]; unfold elapse; cbv zeta.
    + destruct reset.
      * destruct (update_vehicle _ _) as [e1|] eqn:Hupd; [|reflexivity].
        cbn [mbind option_bind].
        assert (config e1 = config e) as ->.
        { unfold update_vehicle in Hupd.
          destruct (ego _); [|discriminate]. simpl in Hupd.
          destruct (objects _ !! _); [|discriminate].
          injection Hupd as <-. reflexivity. }
        rewrite Hf. reflexivity.
      * cbn [mbind option_bind].
        change (config (set_delay delay e)) with (config e).
        rewrite Hf. reflexivity.
    + unfold update_vehicle. unfold vehicle in Hv.
      change (ego (set_delay delay e)) with (ego e).
      destruct (ego e) as [i|]; [|reflexivity].
      cbn [mbind option_bind] in *.
      change (world (set_delay delay e)) with (world e).
      rewrite Hv. reflexivity.
Qed.

(** ** More on the scene populator *)

Lemma reset_inv `{Collaborators} (e e' : Env) :
  _reset e = Some e' ->
  exists cls count controlled sizes lanes show,
    config e !! "lanes_count" = Some lanes
    /\ config e !! "show_trajectories" = Some show
    /\ get_int (config e) "vehicles_count" = Some count
    /\ get_int (config e) "controlled_vehicles" = Some controlled
    /\ near_split count controlled = Some sizes
    /\ create_groups cls sizes
         (set_controlled_vehicles []
            (set_world
               (set_road (mkRoad (straight_road_network lanes 30) [] show)
                         (world e)) e))
       = Some e'.
Proof.
  unfold _reset, _create_road. intros Hrun.
  destruct (config e !! "lanes_count") as [lanes|] eqn:Hlanes; [|discriminate].
  simpl in Hrun.
  destruct (config e !! "show_trajectories") as [show|] eqn:Hshow;
    [|discriminate].
  simpl in Hrun. unfold _create_vehicles in Hrun. simpl in Hrun.
  destruct (config e !! "other_vehicles_type") as [path|]; [|discriminate].
  simpl in Hrun. destruct (class_from_path path) as [cls|]; [|discriminate].
  simpl in Hrun.
  destruct (get_int (config e) "vehicles_count") as [count|] eqn:Hcount;
    [|discriminate].
  simpl in Hrun.
  destruct (get_int (config e) "controlled_vehicles") as [controlled|]
    eqn:Hctrl; [|discriminate].
  simpl in Hrun.
  destruct (near_split count controlled) as [sizes|] eqn:Hsplit;
    [|discriminate].
  simpl in Hrun.
  exists cls, count, controlled, sizes, lanes, show.
  repeat split; try reflexivity; assumption.
Qed.

Lemma group_members_elem (groups : list (oid * list oid)) (i : oid) :
  i ∈ concat (map group_members groups)
  <-> exists g, g ∈ groups /\ (i = g.1 \/ i ∈ g.2).
Proof.
  induction groups as [|g groups IH].
  - simpl. split; [intros H; inversion H | intros (g & H & _); inversion H].
  - change (concat (map group_members (g :: groups)))
      with (group_members g ++ concat (map group_members groups)).
    rewrite elem_of_app, IH. unfold group_members. rewrite elem_of_cons.
    split.
    + intros [[->|Hi]|(g' & Hg' & Hi)].
      * exists g. split; [left|]; auto.
      * exists g. split; [left|]; auto.
      * exists g'. split; [right|]; auto.
    + intros (g' & Hg' & Hi). apply elem_of_cons in Hg' as [->|Hg'].
      * left. exact Hi.
      * right. exists g'. auto.
Qed.

(** A reset replaces the population: every vehicle on the new road is an
    object that did not exist before, the controlled vehicles are on the
    road, and the ego vehicle, when there is one, is the first vehicle put
    on the road and was built by the action type's vehicle class. *)
Theorem reset_fresh_population `{Collaborators} (e e' : Env) :
  _reset e = Some e' ->
  (forall i, i ∈ vehicles (road (world e')) ->
             objects (world e) !! i = None
             /\ is_Some (objects (world e') !! i))
  /\ (forall i, i ∈ controlled_vehicles e' ->
                i ∈ vehicles (road (world e')))
  /\ head (controlled_vehicles e') = head (vehicles (road (world e')))
  /\ (forall i, ego e' = Some i ->
                exists v, vehicle e' = Some v /\ built_as_controlled v)
  /\ config e' = config e.
Proof.
  intros Hrun.
  destruct (reset_inv e e' Hrun)
    as (cls & count & controlled & sizes & lanes & show & _ & _ & _ & _ & _
        & Hgroups).
  apply create_groups_spec in Hgroups
    as (groups & _ & Hveh & Hctrl & Hcfg & _ & Hnone & _ & Hkind).
  simpl in Hveh, Hctrl, Hcfg, Hnone.
  rewrite Hveh, Hctrl. split; [|split; [|split; [|split]]].
  - intros i Hi. split; [apply Hnone, Hi|].
    apply group_members_elem in Hi as (g & Hg & [->|Hi]).
    + destruct (Hkind g Hg) as [(v & Hv & _) _]. eexists. exact Hv.
    + destruct (Hkind g Hg) as [_ Ht].
      destruct (Ht i Hi) as (v & Hv & _). eexists. exact Hv.
  - intros i Hi. apply list_elem_of_fmap in Hi as (g & -> & Hg).
    apply group_members_elem. exists g. auto.
  - destruct groups; reflexivity.
  - intros i Hi. unfold vehicle. rewrite Hi. simpl.
    unfold ego in Hi. rewrite Hctrl in Hi.
    destruct groups as [|g groups]; [discriminate|].
    injection Hi as <-.
    destruct (Hkind g ltac:(left)) as [(v & Hv & Hbuilt) _].
    exists v. auto.
  - exact Hcfg.
Qed.

Lemma reset_total `{Collaborators} (e : Env) (count controlled : Z)
    (path : value) (cls : VehicleType) (density : R) :
  is_Some (config e !! "lanes_count") ->
  is_Some (config e !! "show_trajectories") ->
  config e !! "other_vehicles_type" = Some path ->
  class_from_path path = Some cls ->
  get_int (config e) "vehicles_count" = Some count ->
  get_int (config e) "controlled_vehicles" = Some controlled ->
  is_Some (config e !! "initial_lane_id") ->
  is_Some (config e !! "ego_spacing") ->
  get_num (config e) "vehicles_density" = Some density ->
  density <> 0 ->
  (0 <= count)%Z ->
  (1 <= controlled)%Z ->
  is_Some (_reset e).
Proof.
  intros [lanes Hlanes] [show Hshow] Hpath Hcls Hcount Hctrl Hlane Hspacing
         Hdens Hdens0 Hcount0 Hctrl1.
  destruct (near_split_spec count controlled Hcount0 Hctrl1)
    as (sizes & Hsplit & _).
  unfold _reset, _create_road. rewrite Hlanes, Hshow. simpl.
  unfold _create_vehicles. simpl.
  rewrite Hpath. simpl. rewrite Hcls. simpl. rewrite Hcount. simpl.
  rewrite Hctrl. simpl. rewrite Hsplit. simpl.
  apply (create_groups_total cls sizes _ density); assumption.
Qed.

Lemma sample_reset_runs : is_Some (@_reset sample_collaborators sample_env).
Proof.
  apply (@reset_total sample_collaborators sample_env 20 1
           (VStr "highway_env.vehicle.behavior.IDMVehicle")
           "highway_env.vehicle.behavior.IDMVehicle" 0.7);
    try reflexivity; try (eexists; reflexivity); try lra; lia.
Qed.

Lemma reset_fresh_population_witness :
  exists e',
    @_reset sample_collaborators sample_env = Some e'
    /\ config e' = config sample_env
    /\ head (controlled_vehicles e') = head (vehicles (road (world e'))).
Proof.
  destruct sample_reset_runs as [e' Hrun]. exists e'.
  destruct (@reset_fresh_population sample_collaborators sample_env e' Hrun)
    as (_ & _ & Hhead & _ & Hcfg).
  auto.
Defined.

Lemma create_groups_total_empty `{Collaborators} (cls : VehicleType)
    (sizes : list Z) (e : Env) :
  Forall (fun s => (s <= 0)%Z) sizes ->
  is_Some (config e !! "initial_lane_id") ->
  is_Some (config e !! "ego_spacing") ->
  is_Some (create_groups cls sizes e).
Proof.
  intros Hsizes. revert e.
  induction Hsizes as [|others rest Hle _ IH]; intros e [lane_id Hl] [spacing Hs].
  - eexists. reflexivity.
  - cbn [create_groups]. rewrite Hl, Hs. cbn [mbind option_bind].
    destruct (Vehicle_create_random (world e) (VInt 25) lane_id spacing)
      as [v0 g0].
    rewrite (Z2Nat.nonpos others Hle). cbn [create_others mbind option_bind].
    apply IH; simpl; eauto.
Qed.

(** With [vehicles_count] 0 the populator only builds the controlled
    vehicles and never reads [vehicles_density]: the reset succeeds without
    that entry, and the road carries the controlled vehicles and nothing
    else. *)
Theorem reset_without_traffic `{Collaborators} (e : Env) (controlled : Z)
    (path : value) (cls : VehicleType) :
  is_Some (config e !! "lanes_count") ->
  is_Some (config e !! "show_trajectories") ->
  config e !! "other_vehicles_type" = Some path ->
  class_from_path path = Some cls ->
  get_int (config e) "vehicles_count" = Some 0%Z ->
  get_int (config e) "controlled_vehicles" = Some controlled ->
  is_Some (config e !! "initial_lane_id") ->
  is_Some (config e !! "ego_spacing") ->
  (1 <= controlled)%Z ->
  exists e',
    _reset e = Some e'
    /\ vehicles (road (world e')) = controlled_vehicles e'
    /\ Z.of_nat (length (controlled_vehicles e')) = controlled.
Proof.
  intros [lanes Hlanes] [show Hshow] Hpath Hcls Hcount Hctrl Hlane Hspacing
         Hctrl1.
  destruct (near_split_spec 0 controlled ltac:(lia) Hctrl1)
    as (sizes & Hsplit & Hlen & _ & _ & Hsize).
  assert (Hzero : Forall (fun s => s = 0%Z) sizes).
  { apply Forall_lookup. intros k s Hk. rewrite (Hsize k s Hk).
    rewrite Z.mod_0_l, Z.div_0_l by lia.
    destruct (decide (Z.of_nat k < 0)%Z); [lia|reflexivity]. }
  unfold _reset, _create_road. rewrite Hlanes, Hshow. simpl.
  unfold _create_vehicles. simpl.
  rewrite Hpath. simpl. rewrite Hcls. simpl. rewrite Hcount. simpl.
  rewrite Hctrl. simpl. rewrite Hsplit. simpl.
  match goal with
  | |- exists _, create_groups _ _ ?e1 = _ /\ _ =>
      destruct (create_groups_total_empty cls sizes e1) as [e' He'];
      [eapply Forall_impl; [exact Hzero | intros s ->; lia]
      | exact Hlane | exact Hspacing |]
  end.
  pose proof (create_groups_spec _ _ _ _ He')
    as (groups & Hsizes & Hveh & Hc & _).
  simpl in Hveh, Hc.
  exists e'. split; [exact He'|].
  assert (Hflat : concat (map group_members groups) = groups.*1).
  { clear -Hsizes Hzero. induction Hsizes as [|g s groups sizes Hg _ IH].
    - reflexivity.
    - apply Forall_cons in Hzero as [-> Hzero].
      change (concat (map group_members (g :: groups)))
        with (group_members g ++ concat (map group_members groups)).
      rewrite (IH Hzero). unfold group_members.
      destruct g as [c ts]. simpl in *.
      destruct ts; [reflexivity | discriminate]. }
  split; [rewrite Hveh, Hc, Hflat; reflexivity|].
  rewrite Hc, length_fmap, (Forall2_length _ _ _ Hsizes), Hlen. lia.
Qed.

Lemma no_traffic_density_missing :
  config no_traffic_env !! "vehicles_density" = None.
Proof. reflexivity. Qed.

Lemma reset_without_traffic_witness :
  exists e',
    @_reset sample_collaborators no_traffic_env = Some e'
    /\ length (vehicles (road (world e'))) = 1%nat.
Proof.
  destruct (@reset_without_traffic sample_collaborators no_traffic_env 1
              (VStr "highway_env.vehicle.behavior.IDMVehicle")
              "highway_env.vehicle.behavior.IDMVehicle"
              (ex_intro _ _ eq_refl) (ex_intro _ _ eq_refl) eq_refl eq_refl
              eq_refl eq_refl (ex_intro _ _ eq_refl) (ex_intro _ _ eq_refl)
              ltac:(lia))
    as (e' & Hrun & Hveh & Hlen).
  exists e'. split; [exact Hrun|]. rewrite Hveh. lia.
Defined.

(** With at least one traffic vehicle to place and a [vehicles_density] of
    zero, the reset raises: the spacing [1 / vehicles_density] divides by
    zero. *)
Theorem reset_zero_density `{Collaborators} (e : Env) (count controlled : Z) :
  get_num (config e) "vehicles_density" = Some 0 ->
  get_int (config e) "vehicles_count" = Some count ->
  get_int (config e) "controlled_vehicles" = Some controlled ->
  (1 <= count)%Z ->
  (1 <= controlled)%Z ->
  _reset e = None.
Proof.
  intros Hdens Hcount Hctrl Hcount1 Hctrl1.
  destruct (_reset e) as [e'|] eqn:Hrun; [exfalso|reflexivity].
  destruct (reset_inv e e' Hrun)
    as (cls & count' & controlled' & sizes & lanes & show & _ & _ & Hcount'
        & Hctrl' & Hsplit & Hgroups).
  rewrite Hcount in Hcount'. injection Hcount' as <-.
  rewrite Hctrl in Hctrl'. injection Hctrl' as <-.
  destruct (near_split_spec count controlled ltac:(lia) Hctrl1)
    as (sizes' & Hsplit' & Hlen & _ & _ & Hsize).
  rewrite Hsplit in Hsplit'. injection Hsplit' as <-.
  destruct sizes as [|s0 rest]; [simpl in Hlen; lia|].
  assert (Hs0 : (1 <= s0)%Z).
  { rewrite (Hsize 0%nat s0 eq_refl).
    pose proof (Z.mod_pos_bound count controlled ltac:(lia)).
    pose proof (Z.div_pos count controlled ltac:(lia) ltac:(lia)).
    pose proof (Z.div_mod count controlled ltac:(lia)).
    destruct (decide (Z.of_nat 0 < count mod controlled)%Z); [lia|].
    nia. }
  cbn [create_groups] in Hgroups.
  destruct (config _ !! "initial_lane_id") as [lane_id|]; [|discriminate].
  cbn [mbind option_bind] in Hgroups.
  destruct (config _ !! "ego_spacing") as [spacing|]; [|discriminate].
  cbn [mbind option_bind] in Hgroups.
  destruct (Vehicle_create_random _ _ _ _) as [v0 g0].
  destruct (Z.to_nat s0) as [|k] eqn:Hk; [lia|].
  cbn [create_others] in Hgroups. simpl config in Hgroups.
  rewrite Hdens in Hgroups. cbn [mbind option_bind] in Hgroups.
  unfold py_div in Hgroups.
  destruct (decide (0 = 0)) as [_|Hne]; [discriminate | contradiction].
Qed.

Lemma reset_zero_density_witness :
  @_reset sample_collaborators zero_density_env = None.
Proof.
  apply (@reset_zero_density sample_collaborators zero_density_env 20 1);
    try reflexivity; lia.
Defined.

(** ** The blend on any mapping *)

(** With no entry of the configuration under any name of the mapping:
    when [normalize_reward] is false the blend is 0 for every mapping, each
    term counting with the default weight 0; when it is true and
    [collision_reward] is not configured the blend raises, since the weights
    of the rescaling are looked up without a default. *)
Theorem blend_without_weights (cfg : Config) (rewards : Rewards)
    (flag : value) (on : R) :
  cfg !! "normalize_reward" = Some flag ->
  (forall name, name ∈ rewards.*1 -> cfg !! name = None) ->
  rewards_get rewards "on_road_reward" = Some on ->
  (truthy flag = false -> blend cfg rewards = Some 0)
  /\ (truthy flag = true -> cfg !! "collision_reward" = None ->
      blend cfg rewards = None).
Proof.
  intros Hflag Hnone Hon.
  assert (Hw : forall name, name ∈ rewards.*1 ->
                            get_weight cfg name = Some ((fun _ => 0) name)).
  { intros name Hname. unfold get_weight. rewrite (Hnone name Hname).
    reflexivity. }
  assert (Hsum : forall l : Rewards,
    fold_left (fun (s : R) (p : string * R) => s + 0 * p.2) l 0 = 0).
  { intros l. induction l as [|p rest IH]; [reflexivity|].
    simpl. rewrite Rmult_0_l, Rplus_0_r. exact IH. }
  unfold blend, weighted_sum.
  rewrite (weighted_sum_from_fold cfg (fun _ => 0) rewards 0 Hw).
  cbn [mbind option_bind]. rewrite Hsum. unfold normalize. rewrite Hflag.
  cbn [mbind option_bind].
  split.
  - intros Hf. rewrite Hf. cbn [mbind option_bind]. rewrite Hon.
    cbn [mbind option_bind]. f_equal. lra.
  - intros Hf Hc. rewrite Hf. unfold get_num. rewrite Hc. reflexivity.
Qed.

Lemma unweighted_no_weights (name : string) :
  name ∈ reward_names -> config unweighted_env !! name = None.
Proof.
  unfold reward_names. intros H.
  repeat (apply elem_of_cons in H as [->|H]; [reflexivity|]).
  inversion H.
Qed.

Lemma blend_without_weights_witness :
  blend (config unweighted_env) slow_rewards = Some 0.
Proof.
  apply (proj1 (blend_without_weights (config unweighted_env) slow_rewards
                  (VBool false) 1 eq_refl unweighted_no_weights eq_refl)).
  reflexivity.
Defined.

(** The weighted sum does not depend on the order in which the terms are
    listed. *)
Theorem weighted_sum_permutation (cfg : Config) (r1 r2 : Rewards) :
  r1 ≡ₚ r2 -> weighted_sum cfg r1 = weighted_sum cfg r2.
Proof.
  unfold weighted_sum. intros Hperm. generalize 0.
  induction Hperm as [|[k x] l l' _ IH|[k1 x1] [k2 x2] l|l l' l'' _ IH1 _ IH2];
    intros acc.
  - reflexivity.
  - simpl. destruct (get_weight cfg k); simpl; [apply IH | reflexivity].
  - simpl. destruct (get_weight cfg k1) as [w1|], (get_weight cfg k2) as [w2|];
      simpl; try reflexivity.
    f_equal. ring.
  - rewrite IH1. apply IH2.
Qed.

Lemma weighted_sum_permutation_witness :
  weighted_sum (config sample_env)
    [("high_speed_reward"%string, 1 / 3); ("collision_reward"%string, 0)]
  = weighted_sum (config sample_env)
      [("collision_reward"%string, 0); ("high_speed_reward"%string, 1 / 3)].
Proof.
  apply weighted_sum_permutation. apply perm_swap.
Defined.

(** ** What the class binds *)

Lemma stub_blend :
  blend (config offroad_env)
    [("high_speed_reward"%string, 1); ("on_road_reward"%string, 1)]
  = Some (14 / 15).
Proof.
  pose (w := fun name => default 0 (get_weight (config offroad_env) name)).
  assert (default 0 (get_weight (config offroad_env) "collision_reward") = -1)
    as H1 by reflexivity.
  assert (default 0 (get_weight (config offroad_env) "right_lane_reward") = 0.1)
    as H2 by reflexivity.
  assert (default 0 (get_weight (config offroad_env) "high_speed_reward") = 0.4)
    as H3 by reflexivity.
  assert (default 0 (get_weight (config offroad_env) "on_road_reward") = 0)
    as H4 by reflexivity.
  rewrite (blend_run (config offroad_env) w (VBool true) _ 1).
  - subst w. cbn [truthy fold_left fst snd]. rewrite H1, H2, H3, H4.
    f_equal. lra.
  - intros name H.
    repeat (apply elem_of_cons in H as [->|H]; [reflexivity|]).
    inversion H.
  - reflexivity.
  - intros _. repeat split; reflexivity.
  - reflexivity.
Qed.

(** C1: the class statement binds [_reward] and no [_rewards]; the function
    of that name is bound by the module.  So [self._rewards(action)] inside
    [_reward] runs the parent's method: with a parent whose method is
    abstract the reward raises, and with a parent that answers with an
    on-road term of 1 the reward of a vehicle off the road is 14/15, not 0,
    although the module's [_rewards] gives that vehicle an on-road term
    of 0. *)
Theorem reward_not_bound_to_rewards :
  "_reward"%string ∈ class_attributes
  /\ "_rewards"%string ∉ class_attributes
  /\ "_rewards"%string ∈ bound_names module_source
  /\ vehicle offroad_env = Some offroad_vehicle
  /\ on_road offroad_vehicle = false
  /\ (exists rewards e',
        _rewards (DiscreteAction 0) offroad_env = Some (rewards, e')
        /\ rewards_get rewards "on_road_reward" = Some 0)
  /\ @_reward abstract_parent (DiscreteAction 0) offroad_env = None
  /\ @_reward stub_parent (DiscreteAction 0) offroad_env
     = Some (14 / 15, offroad_env)
  /\ 14 / 15 <> 0.
Proof.
  split; [apply (bool_decide_unpack _); vm_compute; exact I|].
  split; [apply (bool_decide_unpack _); vm_compute; exact I|].
  split; [apply (bool_decide_unpack _); vm_compute; exact I|].
  split; [reflexivity|]. split; [reflexivity|].
  split.
  - destruct (rewards_run (DiscreteAction 0) offroad_env offroad_vehicle
                (10, 25) eq_refl (default_speed_range sample_base_config))
      as (e' & _ & Hv' & _ & _ & Hrun).
    eexists _, e'. split; [exact Hrun|].
    unfold rewards_of. simpl.
    destruct (terminal_condition _ _ _); reflexivity.
  - split; [reflexivity|]. split; [|lra].
    unfold _reward. cbn [inherited_rewards stub_parent mbind option_bind].
    rewrite stub_blend. reflexivity.
Qed.

(** C4: the [def] of [_is_terminated] stands in the body of the module's
    [_rewards], after its [return]: neither the class, nor the module, nor a
    run of [_rewards] binds the name.  A call of [_is_terminated] on the
    environment runs the parent's method, whatever the crashed flag: with a
    parent whose method is abstract it raises for a crashed vehicle, and with
    a parent that answers false it returns false for it. *)
Theorem is_terminated_not_bound :
  "_is_terminated"%string ∉ class_attributes
  /\ "_is_terminated"%string ∉ bound_names module_source
  /\ def_body "_rewards" module_source ≫= def_body "_is_terminated"
     = Some [SOther; SReturn]
  /\ "_is_terminated"%string
     ∉ default [] (bound_names <$> def_body "_rewards" module_source)
  /\ vehicle crashed_env = Some crashed_vehicle
  /\ crashed crashed_vehicle = true
  /\ @is_terminated_call abstract_parent crashed_env = None
  /\ @is_terminated_call stub_parent crashed_env = Some false.
Proof.
  split; [apply (bool_decide_unpack _); vm_compute; exact I|].
  split; [apply (bool_decide_unpack _); vm_compute; exact I|].
  split; [reflexivity|].
  split; [apply (bool_decide_unpack _); vm_compute; exact I|].
  repeat split; reflexivity.
Qed.

Lemma sample_duration : get_num (config (sample_env_at 40)) "duration" = Some 40.
Proof. reflexivity. Qed.

(** C5: the [def] of [_is_truncated] stands in the body of the module's
    [_rewards], after its [return]: neither the class, nor the module, nor a
    run of [_rewards] binds the name.  A call of [_is_truncated] on the
    environment runs the parent's method, whatever the clock: with the time
    at the configured duration, a parent whose method is abstract makes it
    raise and a parent that answers false makes it return false. *)
Theorem is_truncated_not_bound :
  "_is_truncated"%string ∉ class_attributes
  /\ "_is_truncated"%string ∉ bound_names module_source
  /\ def_body "_rewards" module_source ≫= def_body "_is_truncated"
     = Some [SOther; SReturn]
  /\ "_is_truncated"%string
     ∉ default [] (bound_names <$> def_body "_rewards" module_source)
  /\ get_num (config (sample_env_at 40)) "duration" = Some 40
  /\ time (sample_env_at 40) >= 40
  /\ @is_truncated_call abstract_parent (sample_env_at 40) = None
  /\ @is_truncated_call stub_parent (sample_env_at 40) = Some false.
Proof.
  split; [apply (bool_decide_unpack _); vm_compute; exact I|].
  split; [apply (bool_decide_unpack _); vm_compute; exact I|].
  split; [reflexivity|].
  split; [apply (bool_decide_unpack _); vm_compute; exact I|].
  split; [exact sample_duration|].
  split; [simpl; lra|].
  split; reflexivity.
Qed.
